(** * Administrative user lifecycle: [UserAdminService]

    A shallow embedding of [server/src/services/user-admin.service.ts]
    (search, create, update, delete, restore, findOrFail) and the properties
    of the soft-delete / hard-delete / restore lifecycle.

    The service is glue code over collaborators whose code lies outside this
    slice:

    - the User Store, the Album Store and the Job Queue are modelled from
      the specification as in-memory tables inside one [World];
    - the User Core ([createUser], [updateUser]), the preference utilities
      ([getPreferences], [getPreferencesPartial]), the response mappers
      ([mapUser], [mapUserAdmin]) and the usage figure recomputed by
      [syncUsage] are left open, as interfaces ([Class]es): every property
      holds for any implementation of them.

    Every collaborator call the service makes is also appended to a call log
    ([calls]), so that statements of the form "calls X before Y" or "no write
    reaches the store" can be read off the log. *)

From Stdlib Require Import ZArith String Ascii List.
From stdpp Require Import base option list gmap strings.

Local Open Scope Z_scope.
Local Open Scope string_scope.
Local Open Scope list_scope.

(** ** Data model *)

(** Modelled from the spec: [UserStatus] of [src/entities/user.entity]
    ("status (one of: ACTIVE, DELETED, REMOVING)"). *)
Inductive UserStatus := ACTIVE | REMOVING | DELETED.

#[global] Instance UserStatus_eq_dec : EqDecision UserStatus.
Proof. solve_decision. Defined.

(** Modelled from the spec: [UserMetadataKey] of
    [src/entities/user-metadata.entity]; the service only uses
    [UserMetadataKey.PREFERENCES]. *)
Inductive UserMetadataKey := PREFERENCES.

#[global] Instance UserMetadataKey_eq_dec : EqDecision UserMetadataKey.
Proof. solve_decision. Defined.

(** Modelled from the spec: the avatar colour enum.  Its members are string
    literals, none of them empty, so a colour is a non-empty string and a
    present [avatarColor] is always truthy in JavaScript. *)
Inductive UserAvatarColor := AvatarColor (first : ascii) (rest : string).

#[global] Instance UserAvatarColor_eq_dec : EqDecision UserAvatarColor.
Proof. solve_decision. Defined.

(** Modelled from the spec: the user preferences object, restricted to the
    two settings this service reads and writes, [memories.enabled] and
    [avatar.color] ("e.g., memories-enabled flag, avatar color").  [partial]
    is the sparse patch stored as metadata ([DeepPartial<UserPreferences>]);
    [None] is an absent key. *)
Module Preferences.
Record t := {
    memories_enabled : bool;
    avatar_color : UserAvatarColor }.

Record partial := {
    p_memories_enabled : option bool;
    p_avatar_color : option UserAvatarColor }.

(** [prefs.memories.enabled = b] *)
Definition set_memories_enabled (b : bool) (prefs : t) : t :=
    {| memories_enabled := b; avatar_color := avatar_color prefs |}.

(** [prefs.avatar.color = c] *)
Definition set_avatar_color (c : UserAvatarColor) (prefs : t) : t :=
    {| memories_enabled := memories_enabled prefs; avatar_color := c |}.
End Preferences.

(** Modelled from the spec: one row of user metadata, [{ key, value }]. *)
Module UserMetadataItem.
Record t := {
    key : UserMetadataKey;
    value : Preferences.partial }.
End UserMetadataItem.

(** Modelled from the spec: [UserEntity] of [src/entities/user.entity]
    (section 3, "User").  Timestamps are integers, [null] is [None].
    [createdAt], [updatedAt] and the profile image path are left out: the
    service neither reads nor writes them. *)
Module User.
Record t := {
    id : string;
    email : string;
    name : string;
    password : string;
    isAdmin : bool;
    shouldChangePassword : bool;
    quotaSizeInBytes : option Z;
    quotaUsageInBytes : Z;
    status : UserStatus;
    deletedAt : option Z;
    metadata : list UserMetadataItem.t }.

(** [Partial<UserEntity>]: the patch given to [userRepository.update].
      [None] is an absent key; for the nullable columns [Some None] is an
      explicit [null]. *)
Record partial := {
    p_email : option string;
    p_name : option string;
    p_password : option string;
    p_isAdmin : option bool;
    p_shouldChangePassword : option bool;
    p_quotaSizeInBytes : option (option Z);
    p_status : option UserStatus;
    p_deletedAt : option (option Z) }.

(** The object literal [{ status, deletedAt }]: only these two keys. *)
Definition status_patch (s : UserStatus) (d : option Z) : partial :=
    {| p_email := None; p_name := None; p_password := None;
       p_isAdmin := None; p_shouldChangePassword := None;
       p_quotaSizeInBytes := None;
       p_status := Some s; p_deletedAt := Some d |}.

(** Overwrite the columns named by the patch, keep the others. *)
Definition merge (u : t) (p : partial) : t :=
    {| id := id u;
       email := default (email u) (p_email p);
       name := default (name u) (p_name p);
       password := default (password u) (p_password p);
       isAdmin := default (isAdmin u) (p_isAdmin p);
       shouldChangePassword :=
         default (shouldChangePassword u) (p_shouldChangePassword p);
       quotaSizeInBytes := default (quotaSizeInBytes u) (p_quotaSizeInBytes p);
       quotaUsageInBytes := quotaUsageInBytes u;
       status := default (status u) (p_status p);
       deletedAt := default (deletedAt u) (p_deletedAt p);
       metadata := metadata u |}.

Definition set_metadata (items : list UserMetadataItem.t) (u : t) : t :=
    {| id := id u; email := email u; name := name u; password := password u;
       isAdmin := isAdmin u; shouldChangePassword := shouldChangePassword u;
       quotaSizeInBytes := quotaSizeInBytes u;
       quotaUsageInBytes := quotaUsageInBytes u;
       status := status u; deletedAt := deletedAt u; metadata := items |}.

Definition set_quotaUsageInBytes (n : Z) (u : t) : t :=
    {| id := id u; email := email u; name := name u; password := password u;
       isAdmin := isAdmin u; shouldChangePassword := shouldChangePassword u;
       quotaSizeInBytes := quotaSizeInBytes u;
       quotaUsageInBytes := n;
       status := status u; deletedAt := deletedAt u; metadata := metadata u |}.
End User.

(** Modelled from the spec: an album row, as far as the Album Store's
    cascading soft-delete and restore are concerned. *)
Module Album.
Record t := {
    id : string;
    ownerId : string;
    deletedAt : option Z }.

Definition set_deletedAt (d : option Z) (a : t) : t :=
    {| id := id a; ownerId := ownerId a; deletedAt := d |}.
End Album.

(** Modelled from the spec: [UserFindOptions] of
    [src/interfaces/user.interface], "get-by-id (optionally including
    soft-deleted rows)"; the service passes [{}], which is
    [withDeleted := None], or [{ withDeleted: true }]. *)
Record UserFindOptions := { withDeleted : option bool }.

(** ** Command DTOs *)

(** Modelled from the spec: [AuthDto]; the service only reads [auth.user]. *)
Module AuthDto.
Record t := { user : User.t }.
End AuthDto.

(** Modelled from the spec: [UserAdminSearchDto]. *)
Module UserAdminSearchDto.
Record t := { withDeleted : option bool }.
End UserAdminSearchDto.

(** Modelled from the spec: [UserAdminCreateDto], "CreateCommand (email,
    password, name, quota, memoriesEnabled flag, notify flag)".  [rest] is
    what [const { memoriesEnabled, notify, ...rest } = dto] leaves. *)
Module UserAdminCreateDto.
Record rest := {
    r_email : string;
    r_password : string;
    r_name : string;
    r_quotaSizeInBytes : option (option Z) }.

Record t := {
    email : string;
    password : string;
    name : string;
    quotaSizeInBytes : option (option Z);
    memoriesEnabled : option bool;
    notify : option bool }.

Definition rest_of (dto : t) : rest :=
    {| r_email := email dto; r_password := password dto; r_name := name dto;
       r_quotaSizeInBytes := quotaSizeInBytes dto |}.
End UserAdminCreateDto.

(** Modelled from the spec: [UserAdminUpdateDto], "UpdateCommand (partial
    field patch keyed by optional presence, including legacy single-field
    preference shortcuts memoriesEnabled/avatarColor)" over "name, email,
    quota, isAdmin, etc.".  [None] is an absent key ([undefined]); for the
    quota, [Some None] is an explicit [null]. *)
Module UserAdminUpdateDto.
Record t := {
    email : option string;
    password : option string;
    name : option string;
    isAdmin : option bool;
    shouldChangePassword : option bool;
    quotaSizeInBytes : option (option Z);
    memoriesEnabled : option bool;
    avatarColor : option UserAvatarColor }.

(** [delete dto.memoriesEnabled] *)
Definition delete_memoriesEnabled (dto : t) : t :=
    {| email := email dto; password := password dto; name := name dto;
       isAdmin := isAdmin dto; shouldChangePassword := shouldChangePassword dto;
       quotaSizeInBytes := quotaSizeInBytes dto;
       memoriesEnabled := None; avatarColor := avatarColor dto |}.

(** [delete dto.avatarColor] *)
Definition delete_avatarColor (dto : t) : t :=
    {| email := email dto; password := password dto; name := name dto;
       isAdmin := isAdmin dto; shouldChangePassword := shouldChangePassword dto;
       quotaSizeInBytes := quotaSizeInBytes dto;
       memoriesEnabled := memoriesEnabled dto; avatarColor := None |}.
End UserAdminUpdateDto.

(** Modelled from the spec: [UserAdminDeleteDto], [{ force?: boolean }]. *)
Module UserAdminDeleteDto.
Record t := { force : option bool }.
End UserAdminDeleteDto.

(** ** Jobs, exceptions, the call log *)

(** The two job items the service queues, [{ name, data }]:
    [NOTIFY_SIGNUP] with [{ id, tempPassword }] and [USER_DELETION] with
    [{ id, force }]. *)
Inductive JobItem :=
  | NOTIFY_SIGNUP (id : string) (tempPassword : option string)
  | USER_DELETION (id : string) (force : option bool).

(** The exceptions of the service, and [DownstreamFailure] for a failure
    raised by a store (section 7 of the specification). *)
Inductive HttpException :=
  | BadRequestException (message : string)
  | ForbiddenException (message : string)
  | DownstreamFailure (message : string).

(** One entry per collaborator call, in program order. *)
Inductive Call :=
  | UserGet (id : string) (options : UserFindOptions)
  | UserGetList (options : UserFindOptions)
  | UserUpdate (id : string) (patch : User.partial)
  | UserUpsertMetadata (id : string) (item : UserMetadataItem.t)
  | UserSyncUsage (id : string)
  | AlbumSoftDeleteAll (id : string)
  | AlbumRestoreAll (id : string)
  | JobQueue (item : JobItem)
  | CoreCreateUser (dto : UserAdminCreateDto.rest)
  | CoreUpdateUser (authUser : User.t) (id : string) (dto : UserAdminUpdateDto.t).

(** The state the collaborators own: the service itself holds none. *)
Record World := {
  users : gmap string User.t;
  albums : list Album.t;
  jobs : list JobItem;
  clock : Z;
  calls : list Call }.

Definition set_users (us : gmap string User.t) (w : World) : World :=
  {| users := us; albums := albums w; jobs := jobs w; clock := clock w;
     calls := calls w |}.

Definition set_albums (al : list Album.t) (w : World) : World :=
  {| users := users w; albums := al; jobs := jobs w; clock := clock w;
     calls := calls w |}.

Definition push_job (j : JobItem) (w : World) : World :=
  {| users := users w; albums := albums w; jobs := jobs w ++ [j];
     clock := clock w; calls := calls w |}.

(** Append one entry to the call log. *)
Definition record (c : Call) (w : World) : World :=
  {| users := users w; albums := albums w; jobs := jobs w; clock := clock w;
     calls := calls w ++ [c] |}.

(** ** JavaScript tests on optional values *)

(** [if (b)] on [boolean | undefined]. *)
Definition truthy (b : option bool) : bool :=
  match b with Some true => true | _ => false end.

(** [if (n)] on [number | null | undefined]: [0], [null] and [undefined]
    are falsy. *)
Definition truthy_number (n : option (option Z)) : bool :=
  match n with Some (Some z) => negb (Z.eqb z 0) | _ => false end.

(** [if (c)] on [UserAvatarColor | undefined]: a colour is a non-empty
    string, so only [undefined] is falsy. *)
Definition truthy_color (c : option UserAvatarColor) : bool :=
  match c with Some _ => true | None => false end.

(** [stored !== given] between the stored quota ([number | null]) and the
    quota of the command ([number | null | undefined]). *)
Definition strict_ne (stored : option Z) (given : option (option Z)) : bool :=
  negb (bool_decide (given = Some stored)).

(** ** The injected interfaces *)

(** [getPreferences] and [getPreferencesPartial] of [src/utils/preferences]. *)
Class PreferenceUtils := {
  getPreferences : User.t → Preferences.t;
  getPreferencesPartial : User.t → Preferences.t → Preferences.partial }.

(** [UserCore] of [src/cores/user.core].  It is built from the crypto, the
    library and the user repository (constructor, line 39), so it acts on the
    user table only: never on albums, jobs or the call log of the service. *)
Class UserCore := {
  core_createUser :
    UserAdminCreateDto.rest → gmap string User.t →
    (HttpException + User.t) * gmap string User.t;
  core_updateUser :
    User.t → string → UserAdminUpdateDto.t → gmap string User.t →
    (HttpException + User.t) * gmap string User.t }.

(** [mapUser] and [mapUserAdmin] of [src/dtos/user.dto]. *)
Class ResponseMappers := {
  UserResponseDto : Type;
  UserAdminResponseDto : Type;
  mapUser : User.t → UserResponseDto;
  mapUserAdmin : User.t → UserAdminResponseDto }.

(** The storage a user's assets take, which [syncUsage] recomputes from
    tables outside this slice. *)
Class UsageSource := { usedBytes : string → Z }.

(** ** The monad of the service: state, and exceptions that keep the state *)

(** A thrown exception aborts the remaining steps and keeps every effect
    already applied: there is no rollback. *)
Definition M (A : Type) : Type := World → (HttpException + A) * World.

Definition ret {A} (a : A) : M A := λ w, (inr a, w).

Definition throw {A} (e : HttpException) : M A := λ w, (inl e, w).

Definition bind {A B} (m : M A) (k : A → M B) : M B :=
  λ w, match m w with
       | (inl e, w') => (inl e, w')
       | (inr a, w') => k a w'
       end.

Notation "'let*' x ':=' m 'in' k" := (bind m (λ x, k))
  (at level 10, x name, m at level 100, k at level 200, only parsing).

(** [new Date()]: the current time of the world. *)
Definition newDate : M Z := λ w, (inr (clock w), w).

(** ** The stores, as tables *)

(** Modelled from the spec: the User Store, "persists user records; supports
    get-by-id (optionally including soft-deleted rows), list, update, and a
    usage-sync operation", and [upsertMetadata].  A row is soft-deleted when
    its [deletedAt] is set. *)
Module UserStore.
Definition visible (options : UserFindOptions) (u : User.t) : bool :=
  truthy (withDeleted options) || bool_decide (User.deletedAt u = None).

Definition get (id : string) (options : UserFindOptions)
    (us : gmap string User.t) : option User.t :=
  match us !! id with
  | Some u => if visible options u then Some u else None
  | None => None
  end.

Definition getList (options : UserFindOptions) (us : gmap string User.t)
    : list User.t :=
  List.filter (visible options) (map_to_list us).*2.

(** The patched row is written back and returned, soft-deleted or not. *)
Definition update (id : string) (patch : User.partial)
    (us : gmap string User.t) : option (User.t * gmap string User.t) :=
  match us !! id with
  | Some u => let u' := User.merge u patch in Some (u', <[id := u']> us)
  | None => None
  end.

(** One row per key: an item replaces the item of the same key. *)
Definition upsert (item : UserMetadataItem.t) (items : list UserMetadataItem.t)
    : list UserMetadataItem.t :=
  List.filter
    (λ i, negb (bool_decide (UserMetadataItem.key i = UserMetadataItem.key item)))
    items ++ [item].

Definition upsertMetadata (id : string) (item : UserMetadataItem.t)
    (us : gmap string User.t) : option (gmap string User.t) :=
  match us !! id with
  | Some u => Some (<[id := User.set_metadata (upsert item (User.metadata u)) u]> us)
  | None => None
  end.

(** The usage column of the row is overwritten; no row, no effect. *)
Definition syncUsage (id : string) (usage : Z) (us : gmap string User.t)
    : gmap string User.t :=
  match us !! id with
  | Some u => <[id := User.set_quotaUsageInBytes usage u]> us
  | None => us
  end.
End UserStore.

(** Modelled from the spec: the Album Store, "supports cascading soft-delete
    and restore of all albums owned by a user". *)
Module AlbumStore.
Definition softDeleteAll (userId : string) (now : Z) (al : list Album.t)
    : list Album.t :=
  (λ a, if bool_decide (Album.ownerId a = userId)
        then match Album.deletedAt a with
             | None => Album.set_deletedAt (Some now) a
             | Some _ => a
             end
        else a) <$> al.

Definition restoreAll (userId : string) (al : list Album.t) : list Album.t :=
  (λ a, if bool_decide (Album.ownerId a = userId)
        then Album.set_deletedAt None a else a) <$> al.
End AlbumStore.

(** ** The repositories, as the service calls them

    Each method logs its call and then acts on its table.  [update] and
    [upsertMetadata] of a user that has no row fail, as a write to a missing
    row does; the service only reaches them after a successful lookup or
    creation. *)

Module userRepository.
Definition get (id : string) (options : UserFindOptions) : M (option User.t) :=
  λ w, (inr (UserStore.get id options (users w)), record (UserGet id options) w).

Definition getList (options : UserFindOptions) : M (list User.t) :=
  λ w, (inr (UserStore.getList options (users w)), record (UserGetList options) w).

Definition update (id : string) (patch : User.partial) : M User.t :=
  λ w, let w := record (UserUpdate id patch) w in
       match UserStore.update id patch (users w) with
       | Some (u, us) => (inr u, set_users us w)
       | None => (inl (DownstreamFailure "update: no such user"), w)
       end.

Definition upsertMetadata (id : string) (item : UserMetadataItem.t) : M unit :=
  λ w, let w := record (UserUpsertMetadata id item) w in
       match UserStore.upsertMetadata id item (users w) with
       | Some us => (inr tt, set_users us w)
       | None => (inl (DownstreamFailure "upsertMetadata: no such user"), w)
       end.

Definition syncUsage `{!UsageSource} (id : string) : M unit :=
  λ w, let w := record (UserSyncUsage id) w in
       (inr tt, set_users (UserStore.syncUsage id (usedBytes id) (users w)) w).
End userRepository.

Module albumRepository.
Definition softDeleteAll (userId : string) : M unit :=
  λ w, let w := record (AlbumSoftDeleteAll userId) w in
       (inr tt, set_albums (AlbumStore.softDeleteAll userId (clock w) (albums w)) w).

Definition restoreAll (userId : string) : M unit :=
  λ w, let w := record (AlbumRestoreAll userId) w in
       (inr tt, set_albums (AlbumStore.restoreAll userId (albums w)) w).
End albumRepository.

(** Modelled from the spec: the Job Queue "accepts fire-and-forget work
    items"; [queue] appends the item. *)
Module jobRepository.
Definition queue (item : JobItem) : M unit :=
  λ w, (inr tt, push_job item (record (JobQueue item) w)).
End jobRepository.

Module userCore.
Definition createUser `{!UserCore} (dto : UserAdminCreateDto.rest) : M User.t :=
  λ w, let w := record (CoreCreateUser dto) w in
       let '(r, us) := core_createUser dto (users w) in (r, set_users us w).

Definition updateUser `{!UserCore} (authUser : User.t) (id : string)
    (dto : UserAdminUpdateDto.t) : M User.t :=
  λ w, let w := record (CoreUpdateUser authUser id dto) w in
       let '(r, us) := core_updateUser authUser id dto (users w) in
       (r, set_users us w).
End userCore.

(** ** The service *)

Module UserAdminService.
Section Service.
Context `{!PreferenceUtils, !UserCore, !ResponseMappers, !UsageSource}.

(** [findOrFail(id, options)], lines 125-131. *)
Definition findOrFail (id : string) (options : UserFindOptions) : M User.t :=
  let* user := userRepository.get id options in
  match user with
  | None => throw (BadRequestException "User not found")
  | Some user => ret user
  end.

(** [search(auth, dto)], lines 44-47. *)
Definition search (auth : AuthDto.t) (dto : UserAdminSearchDto.t)
    : M (list UserAdminResponseDto) :=
  let* users :=
    userRepository.getList
      {| withDeleted := UserAdminSearchDto.withDeleted dto |} in
  ret (mapUserAdmin <$> users).

(** [create(dto)], lines 49-68. *)
Definition create (dto : UserAdminCreateDto.t) : M UserResponseDto :=
  let memoriesEnabled := UserAdminCreateDto.memoriesEnabled dto in
  let notify := UserAdminCreateDto.notify dto in
  let rest := UserAdminCreateDto.rest_of dto in
  let* user := userCore.createUser rest in
  let* user :=
    if bool_decide (memoriesEnabled = Some false) then
      let* _ :=
        userRepository.upsertMetadata (User.id user)
          {| UserMetadataItem.key := PREFERENCES;
             UserMetadataItem.value :=
               {| Preferences.p_memories_enabled := Some false;
                  Preferences.p_avatar_color := None |} |} in
      findOrFail (User.id user) {| withDeleted := None |}
    else ret user in
  let tempPassword :=
    if User.shouldChangePassword user
    then Some (UserAdminCreateDto.r_password rest) else None in
  let* _ :=
    if truthy notify
    then jobRepository.queue (NOTIFY_SIGNUP (User.id user) tempPassword)
    else ret tt in
  ret (mapUser user).

(** Lines 79-87: the preferences and the command after the two overlays. *)
Definition overlay (prefs : Preferences.t) (dto : UserAdminUpdateDto.t)
    : Preferences.t * UserAdminUpdateDto.t :=
  let '(prefs, dto) :=
    match UserAdminUpdateDto.memoriesEnabled dto with
    | Some b => (Preferences.set_memories_enabled b prefs,
                 UserAdminUpdateDto.delete_memoriesEnabled dto)
    | None => (prefs, dto)
    end in
  match UserAdminUpdateDto.avatarColor dto with
  | Some c => (Preferences.set_avatar_color c prefs,
               UserAdminUpdateDto.delete_avatarColor dto)
  | None => (prefs, dto)
  end.

(** [update(auth, id, dto)], lines 69-98.  The command object is mutated in
    place; the mutated command is what reaches the User Core. *)
Definition update (auth : AuthDto.t) (id : string) (dto : UserAdminUpdateDto.t)
    : M UserResponseDto :=
  let* user := findOrFail id {| withDeleted := None |} in
  let* _ :=
    if truthy_number (UserAdminUpdateDto.quotaSizeInBytes dto)
       && strict_ne (User.quotaSizeInBytes user)
                    (UserAdminUpdateDto.quotaSizeInBytes dto)
    then userRepository.syncUsage id
    else ret tt in
  let* dto :=
    if negb (bool_decide (UserAdminUpdateDto.memoriesEnabled dto = None))
       || truthy_color (UserAdminUpdateDto.avatarColor dto)
    then
      let '(newPreferences, dto) := overlay (getPreferences user) dto in
      let* _ :=
        userRepository.upsertMetadata id
          {| UserMetadataItem.key := PREFERENCES;
             UserMetadataItem.value :=
               getPreferencesPartial user newPreferences |} in
      ret dto
    else ret dto in
  let* updatedUser := userCore.updateUser (AuthDto.user auth) id dto in
  ret (mapUser updatedUser).

(** [delete(auth, id, dto)], lines 100-117. *)
Definition delete (auth : AuthDto.t) (id : string) (dto : UserAdminDeleteDto.t)
    : M UserResponseDto :=
  let force := UserAdminDeleteDto.force dto in
  let* found := findOrFail id {| withDeleted := None |} in
  if User.isAdmin found then
    throw (ForbiddenException "Cannot delete admin user")
  else
    let* _ := albumRepository.softDeleteAll id in
    let status := if truthy force then REMOVING else DELETED in
    let* now := newDate in
    let* user := userRepository.update id (User.status_patch status (Some now)) in
    let* _ :=
      if truthy force
      then jobRepository.queue (USER_DELETION (User.id user) force)
      else ret tt in
    ret (mapUser user).

(** [restore(auth, id)], lines 119-123. *)
Definition restore (auth : AuthDto.t) (id : string) : M UserResponseDto :=
  let* _ := findOrFail id {| withDeleted := Some true |} in
  let* _ := albumRepository.restoreAll id in
  let* user := userRepository.update id (User.status_patch ACTIVE None) in
  ret (mapUser user).
End Service.
End UserAdminService.

(** ** The controller *)

(** Modelled from the spec: [UUIDParamDto] of [src/validation], the [:id]
    path parameter. *)
Module UUIDParamDto.
Record t := { id : string }.
End UUIDParamDto.

(** The five routes of [UserAdminController], each with the arguments its
    handler receives.  The [@Authenticated] guard runs before a handler and
    can only turn a request away; it is not part of this slice. *)
Inductive Request :=
  | GET_admin_users (auth : AuthDto.t) (dto : UserAdminSearchDto.t)
  | POST_admin_users (createUserDto : UserAdminCreateDto.t)
  | PUT_admin_users_id (auth : AuthDto.t) (param : UUIDParamDto.t)
      (dto : UserAdminUpdateDto.t)
  | DELETE_admin_users_id (auth : AuthDto.t) (param : UUIDParamDto.t)
      (dto : UserAdminDeleteDto.t)
  | POST_admin_users_id_restore (auth : AuthDto.t) (param : UUIDParamDto.t).

Module UserAdminController.
Section Controller.
Context `{!PreferenceUtils, !UserCore, !ResponseMappers, !UsageSource}.

(** [@Get()] *)
Definition searchUsersAdmin (auth : AuthDto.t) (dto : UserAdminSearchDto.t)
    : M (list UserAdminResponseDto) :=
  UserAdminService.search auth dto.

(** [@Post()] *)
Definition createUserAdmin (createUserDto : UserAdminCreateDto.t)
    : M UserResponseDto :=
  UserAdminService.create createUserDto.

(** [@Put(':id')] *)
Definition updateUserAdmin (auth : AuthDto.t) (param : UUIDParamDto.t)
    (dto : UserAdminUpdateDto.t) : M UserResponseDto :=
  UserAdminService.update auth (UUIDParamDto.id param) dto.

(** [@Delete(':id')] *)
Definition deleteUserAdmin (auth : AuthDto.t) (param : UUIDParamDto.t)
    (dto : UserAdminDeleteDto.t) : M UserResponseDto :=
  UserAdminService.delete auth (UUIDParamDto.id param) dto.

(** [@Post(':id/restore')] *)
Definition restoreUserAdmin (auth : AuthDto.t) (param : UUIDParamDto.t)
    : M UserResponseDto :=
  UserAdminService.restore auth (UUIDParamDto.id param).

(** A request goes to the handler of its route; the body of the answer is
    a list of admin views for the search and one user view otherwise. *)
Definition handle (req : Request)
    : M (list UserAdminResponseDto + UserResponseDto) :=
  match req with
  | GET_admin_users auth dto =>
      let* body := searchUsersAdmin auth dto in ret (inl body)
  | POST_admin_users dto =>
      let* body := createUserAdmin dto in ret (inr body)
  | PUT_admin_users_id auth param dto =>
      let* body := updateUserAdmin auth param dto in ret (inr body)
  | DELETE_admin_users_id auth param dto =>
      let* body := deleteUserAdmin auth param dto in ret (inr body)
  | POST_admin_users_id_restore auth param =>
      let* body := restoreUserAdmin auth param in ret (inr body)
  end.

(** Requests are served one after the other; a request that fails is
    answered with its exception and the next one is served on the world it
    left. *)
Definition serve (reqs : list Request) (w : World) : World :=
  foldl (λ w req, (handle req w).2) w reqs.
End Controller.
End UserAdminController.

(** ** The invariant between [status] and [deletedAt] *)

(** [deletedAt] is set exactly when the status is DELETED or REMOVING. *)
Definition status_consistent (u : User.t) : Prop :=
  User.deletedAt u ≠ None ↔ (User.status u = DELETED ∨ User.status u = REMOVING).

Definition store_consistent (us : gmap string User.t) : Prop :=
  map_Forall (λ _ u, status_consistent u) us.

(** A patch writes [status] and [deletedAt] together and in agreement, or
    writes neither of them. *)
Definition patch_paired (p : User.partial) : Prop :=
  match User.p_status p, User.p_deletedAt p with
  | Some s, Some d => d ≠ None ↔ (s = DELETED ∨ s = REMOVING)
  | None, None => True
  | _, _ => False
  end.

(** An operation keeps the invariant of the user table, and every row
    update it issues itself is paired. *)
Definition preserves_invariant {A} (m : M A) : Prop :=
  ∀ w, store_consistent (users w) →
    store_consistent (users (m w).2) ∧
    ∃ new, calls (m w).2 = calls w ++ new ∧
           ∀ i p, UserUpdate i p ∈ new → patch_paired p.

(** The two columns of the life cycle of a user. *)
Definition lifecycle (u : User.t) : UserStatus * option Z :=
  (User.status u, User.deletedAt u).

(** Two user tables have the same rows as far as [status] and [deletedAt]
    go: no row added or removed, neither column changed. *)
Definition same_lifecycle (us us' : gmap string User.t) : Prop :=
  ∀ k, lifecycle <$> us' !! k = lifecycle <$> us !! k.

(** The User Core, whose code is outside this slice, keeps the invariant. *)
Definition core_keeps_consistent `{!UserCore} : Prop :=
  ∀ us, store_consistent us →
    (∀ dto, store_consistent (core_createUser dto us).2) ∧
    (∀ a i dto, store_consistent (core_updateUser a i dto us).2).

(** ** Relations between the world before and after *)

(** Every run of [m] takes a world to a world related to it by [R]. *)
Definition steps (R : relation World) {A} (m : M A) : Prop :=
  ∀ w, R w (m w).2.

(** Every collaborator call the service makes respects [R]; for the row
    update, the calls with a patch of [status] and [deletedAt] in
    agreement. *)
Record respected `{!UserCore, !UsageSource} (R : relation World) : Prop := {
  respected_get : ∀ id options, steps R (userRepository.get id options);
  respected_getList : ∀ options, steps R (userRepository.getList options);
  respected_update : ∀ id s d,
    (d ≠ None ↔ (s = DELETED ∨ s = REMOVING)) →
    steps R (userRepository.update id (User.status_patch s d));
  respected_upsertMetadata : ∀ id item,
    steps R (userRepository.upsertMetadata id item);
  respected_syncUsage : ∀ id, steps R (userRepository.syncUsage id);
  respected_softDeleteAll : ∀ id, steps R (albumRepository.softDeleteAll id);
  respected_restoreAll : ∀ id, steps R (albumRepository.restoreAll id);
  respected_queue : ∀ item, steps R (jobRepository.queue item);
  respected_createUser : ∀ dto, steps R (userCore.createUser dto);
  respected_updateUser : ∀ a id dto, steps R (userCore.updateUser a id dto) }.

(** The invariant is kept and the row updates added to the log are
    paired: [preserves_invariant], as a relation. *)
Definition keeps_invariant (w w' : World) : Prop :=
  store_consistent (users w) →
  store_consistent (users w') ∧
  ∃ new, calls w' = calls w ++ new ∧
         ∀ i p, UserUpdate i p ∈ new → patch_paired p.

(** The albums there are, and who owns them. *)
Definition album_keys (w : World) : list (string * string) :=
  (λ a, (Album.id a, Album.ownerId a)) <$> albums w.

(** The job queue and the call log are extended, never cut; no album is added,
    removed or given to another owner; the clock is not set. *)
Definition grows (w w' : World) : Prop :=
  (∃ more, jobs w' = jobs w ++ more)
  ∧ (∃ more, calls w' = calls w ++ more)
  ∧ album_keys w' = album_keys w
  ∧ clock w' = clock w.

(** The test of line 72, on the user found and the command. *)
Definition resyncs (u : User.t) (dto : UserAdminUpdateDto.t) : bool :=
  truthy_number (UserAdminUpdateDto.quotaSizeInBytes dto)
  && strict_ne (User.quotaSizeInBytes u) (UserAdminUpdateDto.quotaSizeInBytes dto).

(** The test of line 77. *)
Definition has_shortcut (dto : UserAdminUpdateDto.t) : bool :=
  negb (bool_decide (UserAdminUpdateDto.memoriesEnabled dto = None))
  || truthy_color (UserAdminUpdateDto.avatarColor dto).

(** The user table [update] hands to the User Core: the usage of the row is
    resynchronised first, its preferences item is upserted second. *)
Definition table_before_patch `{!UsageSource} (id : string) (u : User.t)
    (sync short : bool) (item : UserMetadataItem.t) (us : gmap string User.t)
    : gmap string User.t :=
  let u1 := if sync then User.set_quotaUsageInBytes (usedBytes id) u else u in
  let us1 := if sync then <[id := u1]> us else us in
  if short
  then <[id := User.set_metadata (UserStore.upsert item (User.metadata u1)) u1]> us1
  else us1.

Arguments table_before_patch : simpl never.

(** ** A concrete instance *)

(** A small instance of the interfaces and a world of three users
    and three albums, on which the service runs by computation. *)
Module Fixture.
Definition pink : UserAvatarColor := AvatarColor "p" "ink".
Definition primary : UserAvatarColor := AvatarColor "p" "rimary".

Definition root : User.t :=
  {| User.id := "root"; User.email := "admin@immich.cloud";
     User.name := "Immich Admin"; User.password := "#hash0";
     User.isAdmin := true; User.shouldChangePassword := false;
     User.quotaSizeInBytes := None; User.quotaUsageInBytes := 0;
     User.status := ACTIVE; User.deletedAt := None; User.metadata := [] |}.

Definition user1 : User.t :=
  {| User.id := "u1"; User.email := "user1@immich.cloud";
     User.name := "User 1"; User.password := "#hash1";
     User.isAdmin := false; User.shouldChangePassword := true;
     User.quotaSizeInBytes := Some 100; User.quotaUsageInBytes := 7;
     User.status := DELETED; User.deletedAt := Some 5; User.metadata := [] |}.

Definition user2 : User.t :=
  {| User.id := "u2"; User.email := "user2@immich.cloud";
     User.name := "User 2"; User.password := "#hash2";
     User.isAdmin := false; User.shouldChangePassword := true;
     User.quotaSizeInBytes := Some 100; User.quotaUsageInBytes := 7;
     User.status := ACTIVE; User.deletedAt := None; User.metadata := [] |}.

Definition album (id owner : string) (d : option Z) : Album.t :=
  {| Album.id := id; Album.ownerId := owner; Album.deletedAt := d |}.

Definition world : World :=
  {| users := <["root" := root]> (<["u1" := user1]> (<["u2" := user2]> ∅));
     albums := [album "a1" "u1" (Some 5); album "a2" "u2" None;
                album "a3" "root" None];
     jobs := []; clock := 42; calls := [] |}.

Definition admin : AuthDto.t := {| AuthDto.user := root |}.

Definition defaults : Preferences.t :=
  {| Preferences.memories_enabled := true; Preferences.avatar_color := primary |}.

(** Defaults overlaid with every stored preferences item. *)
Definition effective (u : User.t) : Preferences.t :=
  foldl (λ prefs item,
           let v := UserMetadataItem.value item in
           {| Preferences.memories_enabled :=
                default (Preferences.memories_enabled prefs)
                        (Preferences.p_memories_enabled v);
              Preferences.avatar_color :=
                default (Preferences.avatar_color prefs)
                        (Preferences.p_avatar_color v) |})
        defaults (User.metadata u).

(** The settings of [new] that differ from the effective ones of [u]. *)
Definition difference (u : User.t) (new : Preferences.t) : Preferences.partial :=
  let old := effective u in
  {| Preferences.p_memories_enabled :=
       if bool_decide (Preferences.memories_enabled new = Preferences.memories_enabled old)
       then None else Some (Preferences.memories_enabled new);
     Preferences.p_avatar_color :=
       if bool_decide (Preferences.avatar_color new = Preferences.avatar_color old)
       then None else Some (Preferences.avatar_color new) |}.

#[export] Instance preferences : PreferenceUtils :=
  {| getPreferences := effective; getPreferencesPartial := difference |}.

Definition patch_of (dto : UserAdminUpdateDto.t) : User.partial :=
  {| User.p_email := UserAdminUpdateDto.email dto;
     User.p_name := UserAdminUpdateDto.name dto;
     User.p_password := UserAdminUpdateDto.password dto;
     User.p_isAdmin := UserAdminUpdateDto.isAdmin dto;
     User.p_shouldChangePassword := UserAdminUpdateDto.shouldChangePassword dto;
     User.p_quotaSizeInBytes := UserAdminUpdateDto.quotaSizeInBytes dto;
     User.p_status := None; User.p_deletedAt := None |}.

Definition new_user (dto : UserAdminCreateDto.rest) : User.t :=
  {| User.id := "id:" +:+ UserAdminCreateDto.r_email dto;
     User.email := UserAdminCreateDto.r_email dto;
     User.name := UserAdminCreateDto.r_name dto;
     User.password := "#" +:+ UserAdminCreateDto.r_password dto;
     User.isAdmin := false; User.shouldChangePassword := true;
     User.quotaSizeInBytes := default None (UserAdminCreateDto.r_quotaSizeInBytes dto);
     User.quotaUsageInBytes := 0;
     User.status := ACTIVE; User.deletedAt := None; User.metadata := [] |}.

#[export] Instance core : UserCore :=
  {| core_createUser dto us :=
       let u := new_user dto in
       match us !! User.id u with
       | Some _ => (inl (BadRequestException "User exists"), us)
       | None => (inr u, <[User.id u := u]> us)
       end;
     core_updateUser a i dto us :=
       match UserStore.update i (patch_of dto) us with
       | Some (u, us') => (inr u, us')
       | None => (inl (BadRequestException "User not found"), us)
       end |}.

#[export] Instance mappers : ResponseMappers :=
  {| UserResponseDto := User.t; UserAdminResponseDto := User.t;
     mapUser u := u; mapUserAdmin u := u |}.

#[export] Instance usage : UsageSource := {| usedBytes _ := 7 |}.

Definition no_update : UserAdminUpdateDto.t :=
  {| UserAdminUpdateDto.email := None; UserAdminUpdateDto.password := None;
     UserAdminUpdateDto.name := None; UserAdminUpdateDto.isAdmin := None;
     UserAdminUpdateDto.shouldChangePassword := None;
     UserAdminUpdateDto.quotaSizeInBytes := None;
     UserAdminUpdateDto.memoriesEnabled := None;
     UserAdminUpdateDto.avatarColor := None |}.

Definition with_quota (q : option (option Z)) : UserAdminUpdateDto.t :=
  {| UserAdminUpdateDto.email := None; UserAdminUpdateDto.password := None;
     UserAdminUpdateDto.name := None; UserAdminUpdateDto.isAdmin := None;
     UserAdminUpdateDto.shouldChangePassword := None;
     UserAdminUpdateDto.quotaSizeInBytes := q;
     UserAdminUpdateDto.memoriesEnabled := None;
     UserAdminUpdateDto.avatarColor := None |}.

Definition with_shortcuts (m : option bool) (c : option UserAvatarColor)
    : UserAdminUpdateDto.t :=
  {| UserAdminUpdateDto.email := None; UserAdminUpdateDto.password := None;
     UserAdminUpdateDto.name := Some "Name"; UserAdminUpdateDto.isAdmin := None;
     UserAdminUpdateDto.shouldChangePassword := None;
     UserAdminUpdateDto.quotaSizeInBytes := None;
     UserAdminUpdateDto.memoriesEnabled := m;
     UserAdminUpdateDto.avatarColor := c |}.

Definition signup (m n : option bool) : UserAdminCreateDto.t :=
  {| UserAdminCreateDto.email := "user5@immich.cloud";
     UserAdminCreateDto.password := "password123";
     UserAdminCreateDto.name := "Immich";
     UserAdminCreateDto.quotaSizeInBytes := None;
     UserAdminCreateDto.memoriesEnabled := m;
     UserAdminCreateDto.notify := n |}.
End Fixture.

(** ** Properties *)

(** A User Core that rejects every request and leaves the user table as it
    is, to run the service on its failing paths. *)
Module Rejecting.
#[export] Instance core : UserCore :=
  {| core_createUser dto us := (inl (BadRequestException "User exists"), us);
     core_updateUser a i dto us :=
       (inl (BadRequestException "The server already has an admin"), us) |}.
End Rejecting.

(** Membership in an explicit list of calls, settled by the constructors. *)
Ltac no_such_call H :=
  repeat (apply elem_of_cons in H as [H | H]; [discriminate H|]);
  apply elem_of_nil in H; contradiction.

Section Properties.
Context `{!PreferenceUtils, !UserCore, !ResponseMappers, !UsageSource}.

Implicit Types (w : World) (u : User.t) (id : string) (us : gmap string User.t).

(** The options [{}] of the lookups of [update] and [delete]. *)
Notation "'live'" := {| withDeleted := None |}.
(** The options [{ withDeleted: true }] of the lookup of [restore]. *)
Notation "'any'" := {| withDeleted := Some true |}.

(** *** The User Store *)

Lemma get_lookup id options us u :
  UserStore.get id options us = Some u → us !! id = Some u.
Proof.
  unfold UserStore.get. destruct (us !! id) as [u0|]; [|done].
  destruct (UserStore.visible options u0); congruence.
Qed.

Lemma get_live id us u :
  us !! id = Some u → User.deletedAt u = None → UserStore.get id live us = Some u.
Proof.
  intros Hu Hd. unfold UserStore.get, UserStore.visible. rewrite Hu, Hd.
  reflexivity.
Qed.

Lemma get_live_deleted id us u :
  us !! id = Some u → User.deletedAt u ≠ None → UserStore.get id live us = None.
Proof.
  intros Hu Hd. unfold UserStore.get, UserStore.visible. rewrite Hu. simpl.
  rewrite bool_decide_eq_false_2; done.
Qed.

Lemma get_any id us : UserStore.get id any us = us !! id.
Proof. unfold UserStore.get. destruct (us !! id); reflexivity. Qed.

Lemma update_lookup id patch us u :
  us !! id = Some u →
  UserStore.update id patch us
  = Some (User.merge u patch, <[id := User.merge u patch]> us).
Proof. intros Hu. unfold UserStore.update. rewrite Hu. reflexivity. Qed.

(** *** The Album Store *)

Lemma restoreAll_restored id (al : list Album.t) (a : Album.t) :
  a ∈ AlbumStore.restoreAll id al → Album.ownerId a = id →
  Album.deletedAt a = None.
Proof.
  unfold AlbumStore.restoreAll. intros Hin Ho.
  apply list_elem_of_fmap in Hin as (b & -> & _).
  destruct (bool_decide (Album.ownerId b = id)) eqn:Hb; [reflexivity|].
  apply bool_decide_eq_false in Hb. contradiction.
Qed.

Lemma restoreAll_others id (al : list Album.t) (a : Album.t) :
  a ∈ al → Album.ownerId a ≠ id → a ∈ AlbumStore.restoreAll id al.
Proof.
  intros Hin Ho. unfold AlbumStore.restoreAll.
  apply list_elem_of_fmap. exists a. split; [|done].
  rewrite bool_decide_eq_false_2; done.
Qed.

Lemma restoreAll_twice id (al : list Album.t) :
  AlbumStore.restoreAll id (AlbumStore.restoreAll id al)
  = AlbumStore.restoreAll id al.
Proof.
  unfold AlbumStore.restoreAll. rewrite <- list_fmap_compose.
  apply list_fmap_ext. intros _ a _. simpl.
  destruct (bool_decide (Album.ownerId a = id)) eqn:Hb; simpl; rewrite Hb;
    reflexivity.
Qed.

(** *** Running [findOrFail] *)

Lemma findOrFail_found id options w u :
  UserStore.get id options (users w) = Some u →
  UserAdminService.findOrFail id options w = (inr u, record (UserGet id options) w).
Proof.
  intros Hget. unfold UserAdminService.findOrFail, bind, userRepository.get.
  rewrite Hget. reflexivity.
Qed.

Lemma findOrFail_missing id options w :
  UserStore.get id options (users w) = None →
  UserAdminService.findOrFail id options w
  = (inl (BadRequestException "User not found"), record (UserGet id options) w).
Proof.
  intros Hget. unfold UserAdminService.findOrFail, bind, userRepository.get.
  rewrite Hget. reflexivity.
Qed.

(** *** Running [delete] and [restore] *)

Lemma delete_run auth id dto w u :
  users w !! id = Some u → User.deletedAt u = None → User.isAdmin u = false →
  let force := UserAdminDeleteDto.force dto in
  let patch :=
    User.status_patch (if truthy force then REMOVING else DELETED)
                      (Some (clock w)) in
  let u' := User.merge u patch in
  let queued :=
    if truthy force then [USER_DELETION (User.id u) force] else [] in
  UserAdminService.delete auth id dto w
  = (inr (mapUser u'),
     {| users := <[id := u']> (users w);
        albums := AlbumStore.softDeleteAll id (clock w) (albums w);
        jobs := jobs w ++ queued;
        clock := clock w;
        calls := calls w ++ [UserGet id live; AlbumSoftDeleteAll id;
                             UserUpdate id patch] ++ (JobQueue <$> queued) |}).
Proof.
  intros Hu Hd Ha. simpl. unfold UserAdminService.delete, bind.
  rewrite (findOrFail_found id live w u) by (by apply get_live).
  rewrite Ha.
  unfold albumRepository.softDeleteAll, newDate, userRepository.update. simpl.
  rewrite (update_lookup _ _ _ u Hu).
  destruct (truthy (UserAdminDeleteDto.force dto)); simpl;
    unfold set_users, push_job, record, ret; simpl;
    rewrite <- ?app_assoc; simpl; rewrite ?app_nil_r; reflexivity.
Qed.

Lemma restore_run auth id w u :
  users w !! id = Some u →
  let patch := User.status_patch ACTIVE None in
  let u' := User.merge u patch in
  UserAdminService.restore auth id w
  = (inr (mapUser u'),
     {| users := <[id := u']> (users w);
        albums := AlbumStore.restoreAll id (albums w);
        jobs := jobs w;
        clock := clock w;
        calls := calls w ++ [UserGet id any; AlbumRestoreAll id;
                             UserUpdate id patch] |}).
Proof.
  intros Hu. simpl. unfold UserAdminService.restore, bind.
  rewrite (findOrFail_found id any w u) by (by rewrite get_any).
  unfold albumRepository.restoreAll, userRepository.update. simpl.
  rewrite (update_lookup _ _ _ u Hu).
  unfold set_users, record, ret; simpl. rewrite <- !app_assoc. reflexivity.
Qed.

(** *** Deleting *)

(** C1.  Deleting a user whose lookup resolves to an administrator fails
    with the Forbidden exception "Cannot delete admin user", whatever the
    command (so for [force] true, false or absent), and nothing is written:
    the user table, the albums and the job queue are as before, and the only
    call made is the lookup. *)
Theorem delete_admin_forbidden auth id dto w u :
  UserStore.get id live (users w) = Some u →
  User.isAdmin u = true →
  let r := UserAdminService.delete auth id dto w in
  r.1 = inl (ForbiddenException "Cannot delete admin user")
  ∧ users r.2 = users w
  ∧ albums r.2 = albums w
  ∧ jobs r.2 = jobs w
  ∧ calls r.2 = calls w ++ [UserGet id live].
Proof.
  intros Hget Ha. simpl. unfold UserAdminService.delete, bind.
  rewrite (findOrFail_found id live w u Hget), Ha.
  repeat split.
Qed.

(** C2.  Deleting an existing, not deleted, non-admin user without [force]
    ([force] false or absent) updates that user's row with status DELETED
    and [deletedAt] set to the current time in one update, returns the
    updated user, and queues no job: the job queue is unchanged and the
    calls made are the lookup, the album soft-delete and the row update. *)
Theorem delete_soft auth id dto w u :
  users w !! id = Some u →
  User.deletedAt u = None →
  User.isAdmin u = false →
  truthy (UserAdminDeleteDto.force dto) = false →
  let patch := User.status_patch DELETED (Some (clock w)) in
  let u' := User.merge u patch in
  let r := UserAdminService.delete auth id dto w in
  r.1 = inr (mapUser u')
  ∧ users r.2 = <[id := u']> (users w)
  ∧ User.status u' = DELETED
  ∧ User.deletedAt u' = Some (clock w)
  ∧ jobs r.2 = jobs w
  ∧ calls r.2
    = calls w ++ [UserGet id live; AlbumSoftDeleteAll id; UserUpdate id patch].
Proof.
  intros Hu Hd Ha Hf. simpl.
  rewrite (delete_run auth id dto w u Hu Hd Ha), Hf. simpl.
  rewrite !app_nil_r. repeat split.
Qed.

(** C3.  Deleting an existing, not deleted, non-admin user with [force] true
    updates that user's row with status REMOVING and [deletedAt] set to the
    current time in one update, and queues exactly one USER_DELETION job,
    whose payload is that user's id and the force flag. *)
Theorem delete_force auth id w u :
  users w !! id = Some u →
  User.deletedAt u = None →
  User.isAdmin u = false →
  let dto := {| UserAdminDeleteDto.force := Some true |} in
  let patch := User.status_patch REMOVING (Some (clock w)) in
  let u' := User.merge u patch in
  let job := USER_DELETION (User.id u) (Some true) in
  let r := UserAdminService.delete auth id dto w in
  r.1 = inr (mapUser u')
  ∧ users r.2 = <[id := u']> (users w)
  ∧ User.status u' = REMOVING
  ∧ User.deletedAt u' = Some (clock w)
  ∧ jobs r.2 = jobs w ++ [job]
  ∧ calls r.2
    = calls w ++ [UserGet id live; AlbumSoftDeleteAll id; UserUpdate id patch;
                  JobQueue job].
Proof.
  intros Hu Hd Ha. simpl.
  rewrite (delete_run auth id _ w u Hu Hd Ha). simpl. repeat split.
Qed.

(** C9.  Deleting a user whose row is already soft-deleted ([deletedAt]
    set) fails with the exception "User not found": the lookup of [delete]
    leaves soft-deleted rows out.  No album is soft-deleted, no row is
    written and no job is queued; the only call made is the lookup. *)
Theorem delete_soft_deleted_not_found auth id dto w u :
  users w !! id = Some u →
  User.deletedAt u ≠ None →
  let r := UserAdminService.delete auth id dto w in
  r.1 = inl (BadRequestException "User not found")
  ∧ users r.2 = users w
  ∧ albums r.2 = albums w
  ∧ jobs r.2 = jobs w
  ∧ calls r.2 = calls w ++ [UserGet id live].
Proof.
  intros Hu Hd. simpl. unfold UserAdminService.delete, bind.
  rewrite (findOrFail_missing id live w)
    by (by apply (get_live_deleted id (users w) u)).
  repeat split.
Qed.

(** *** Restoring *)

(** C4.  Restoring a user whose lookup, soft-deleted rows included, resolves
    to a soft-deleted user sets that user's [deletedAt] to null and status to
    ACTIVE in one update, and calls the Album Store's [restoreAll] for that
    user: afterwards no album of that user is soft-deleted, and the albums of
    other users are as before. *)
Theorem restore_soft_deleted auth id w u :
  UserStore.get id any (users w) = Some u →
  User.deletedAt u ≠ None →
  let patch := User.status_patch ACTIVE None in
  let u' := User.merge u patch in
  let r := UserAdminService.restore auth id w in
  r.1 = inr (mapUser u')
  ∧ users r.2 = <[id := u']> (users w)
  ∧ User.deletedAt u' = None
  ∧ User.status u' = ACTIVE
  ∧ calls r.2
    = calls w ++ [UserGet id any; AlbumRestoreAll id; UserUpdate id patch]
  ∧ albums r.2 = AlbumStore.restoreAll id (albums w)
  ∧ (∀ a, a ∈ albums r.2 → Album.ownerId a = id → Album.deletedAt a = None)
  ∧ (∀ a, a ∈ albums w → Album.ownerId a ≠ id → a ∈ albums r.2).
Proof.
  intros Hget _. simpl. apply get_lookup in Hget.
  rewrite (restore_run auth id w u Hget). simpl.
  repeat split.
  - intros a. apply restoreAll_restored.
  - intros a. apply restoreAll_others.
Qed.

(** C10.  [restore] never rejects a user that has a row, soft-deleted or
    not: it succeeds and leaves the row ACTIVE with [deletedAt] null; a
    second [restore] right after succeeds as well, returns the same user and
    leaves the user table, the albums and the job queue as the first left
    them.  The exception "User not found" is raised exactly when the id has
    no row at all. *)
Theorem restore_idempotent auth id w :
  (∀ u, users w !! id = Some u →
     let u' := User.merge u (User.status_patch ACTIVE None) in
     let r1 := UserAdminService.restore auth id w in
     let r2 := UserAdminService.restore auth id r1.2 in
     r1.1 = inr (mapUser u')
     ∧ users r1.2 !! id = Some u'
     ∧ User.status u' = ACTIVE ∧ User.deletedAt u' = None
     ∧ r2.1 = inr (mapUser u')
     ∧ users r2.2 = users r1.2
     ∧ albums r2.2 = albums r1.2
     ∧ jobs r2.2 = jobs r1.2)
  ∧ ((UserAdminService.restore auth id w).1
       = inl (BadRequestException "User not found")
     ↔ users w !! id = None).
Proof.
  split.
  - intros u Hu. simpl.
    rewrite (restore_run auth id w u Hu). simpl.
    rewrite (restore_run auth id _ (User.merge u (User.status_patch ACTIVE None)))
      by (simpl; apply lookup_insert_eq).
    simpl. rewrite insert_insert_eq, restoreAll_twice, lookup_insert_eq.
    repeat split.
  - destruct (users w !! id) as [u|] eqn:Hu.
    + rewrite (restore_run auth id w u Hu). simpl. split; discriminate.
    + unfold UserAdminService.restore, bind.
      rewrite (findOrFail_missing id any w) by (by rewrite get_any).
      simpl. split; reflexivity.
Qed.

(** *** Running [update] *)

Lemma update_run auth id dto w u :
  UserStore.get id live (users w) = Some u →
  let sync := resyncs u dto in
  let short := has_shortcut dto in
  let over := UserAdminService.overlay (getPreferences u) dto in
  let dto' := if short then over.2 else dto in
  let item :=
    {| UserMetadataItem.key := PREFERENCES;
       UserMetadataItem.value := getPreferencesPartial u over.1 |} in
  let core :=
    core_updateUser (AuthDto.user auth) id dto'
      (table_before_patch id u sync short item (users w)) in
  UserAdminService.update auth id dto w
  = (match core.1 with inl e => inl e | inr u' => inr (mapUser u') end,
     {| users := core.2;
        albums := albums w;
        jobs := jobs w;
        clock := clock w;
        calls := calls w ++ [UserGet id live]
                 ++ (if sync then [UserSyncUsage id] else [])
                 ++ (if short then [UserUpsertMetadata id item] else [])
                 ++ [CoreUpdateUser (AuthDto.user auth) id dto'] |}).
Proof.
  intros Hget. simpl. unfold UserAdminService.update, bind.
  rewrite (findOrFail_found id live w u Hget).
  apply get_lookup in Hget.
  fold (resyncs u dto). fold (has_shortcut dto).
  unfold table_before_patch.
  destruct (resyncs u dto), (has_shortcut dto);
    destruct (UserAdminService.overlay (getPreferences u) dto) as [prefs dto'];
    unfold userRepository.syncUsage, userRepository.upsertMetadata,
      UserStore.upsertMetadata, UserStore.syncUsage,
      userCore.updateUser, ret; simpl;
    rewrite ?Hget, ?lookup_insert_eq; simpl;
    match goal with
    | |- context [core_updateUser ?a ?i ?d ?t] =>
        destruct (core_updateUser a i d t) as [[e|u'] us'] eqn:Hcore
    end; simpl; unfold set_users, record; simpl;
    rewrite <- ?app_assoc; reflexivity.
Qed.

Lemma overlay_eq (prefs : Preferences.t) (dto : UserAdminUpdateDto.t) :
  UserAdminService.overlay prefs dto
  = ({| Preferences.memories_enabled :=
          default (Preferences.memories_enabled prefs)
                  (UserAdminUpdateDto.memoriesEnabled dto);
        Preferences.avatar_color :=
          default (Preferences.avatar_color prefs)
                  (UserAdminUpdateDto.avatarColor dto) |},
     UserAdminUpdateDto.delete_avatarColor
       (UserAdminUpdateDto.delete_memoriesEnabled dto)).
Proof.
  destruct prefs as [m c], dto as [e p n a s q [b|] [c'|]]; reflexivity.
Qed.

Lemma table_before_patch_lookup id u sync short item us :
  us !! id = Some u →
  ∃ u1, table_before_patch id u sync short item us !! id = Some u1
        ∧ (sync = true → User.quotaUsageInBytes u1 = usedBytes id)
        ∧ (short = true
           → User.metadata u1 = UserStore.upsert item (User.metadata u))
        ∧ User.status u1 = User.status u
        ∧ User.deletedAt u1 = User.deletedAt u.
Proof.
  intros Hu. unfold table_before_patch.
  destruct sync, short; eexists;
    (split; [first [apply lookup_insert_eq | exact Hu]|]);
    repeat split; intros; try discriminate; reflexivity.
Qed.

(** *** Updating *)

(** C6 (amended).  For a user that the lookup of [update] resolves: when
    the command sets [quotaSizeInBytes] to a number other than 0 that differs
    from the stored quota, [update] calls [syncUsage] for that user once,
    before the User Core is called with the patch, and the table the User
    Core receives has that user's usage resynchronised; when the command
    carries no quota (only other fields), or a quota equal to the stored one,
    no [syncUsage] call is made. *)
Theorem update_resync auth id dto w u :
  UserStore.get id live (users w) = Some u →
  let q := UserAdminUpdateDto.quotaSizeInBytes dto in
  let r := UserAdminService.update auth id dto w in
  (∀ n, q = Some (Some n) → n ≠ 0 → User.quotaSizeInBytes u ≠ Some n →
     ∃ mid dto' us1 u1,
       calls r.2
       = calls w ++ [UserGet id live; UserSyncUsage id] ++ mid
                 ++ [CoreUpdateUser (AuthDto.user auth) id dto']
       ∧ (∀ c, c ∈ mid → ∃ item, c = UserUpsertMetadata id item)
       ∧ users r.2 = (core_updateUser (AuthDto.user auth) id dto' us1).2
       ∧ us1 !! id = Some u1
       ∧ User.quotaUsageInBytes u1 = usedBytes id)
  ∧ ((q = None ∨ q = Some (User.quotaSizeInBytes u)) →
     ∃ new, calls r.2 = calls w ++ new ∧ ∀ i, UserSyncUsage i ∉ new).
Proof.
  intros Hget. simpl. rewrite (update_run auth id dto w u Hget). simpl.
  pose proof (get_lookup _ _ _ _ Hget) as Hu.
  split.
  - intros n Hq Hn Hne.
    assert (resyncs u dto = true) as Hsync.
    { unfold resyncs, strict_ne. rewrite Hq. simpl.
      apply andb_true_intro. split.
      - apply negb_true_iff, Z.eqb_neq, Hn.
      - apply negb_true_iff, bool_decide_eq_false. congruence. }
    rewrite Hsync.
    destruct (table_before_patch_lookup id u true (has_shortcut dto)
                {| UserMetadataItem.key := PREFERENCES;
                   UserMetadataItem.value :=
                     getPreferencesPartial u
                       (UserAdminService.overlay (getPreferences u) dto).1 |}
                (users w) Hu) as (u1 & Hu1 & Husage & _).
    eexists _, _, _, u1. split; [|split; [|split; [reflexivity|split]]].
    + simpl. reflexivity.
    + intros c Hc. destruct (has_shortcut dto).
      * apply list_elem_of_singleton in Hc. eauto.
      * apply elem_of_nil in Hc. contradiction.
    + exact Hu1.
    + by apply Husage.
  - intros Hq.
    assert (resyncs u dto = false) as Hsync.
    { unfold resyncs, strict_ne. destruct Hq as [-> | ->]; [reflexivity|].
      rewrite bool_decide_eq_true_2 by reflexivity. apply andb_false_r. }
    rewrite Hsync. eexists. split; [reflexivity|].
    intros i Hin. simpl in Hin.
    rewrite !elem_of_cons, elem_of_app, list_elem_of_singleton in Hin.
    destruct Hin as [Hin | [Hin | Hin]]; try discriminate.
    destruct (has_shortcut dto).
    + apply list_elem_of_singleton in Hin. discriminate.
    + apply elem_of_nil in Hin. contradiction.
Qed.

(** C7.  For a user that the lookup of [update] resolves and a command
    carrying [memoriesEnabled] and/or [avatarColor]: both keys are removed
    from the command before the User Core is called (its other keys are
    untouched), and their values are persisted by one upsert of the
    PREFERENCES metadata item whose value is [getPreferencesPartial] of the
    user and of the user's current preferences overlaid with the new values.
    No other write is made before the User Core call, apart from a possible
    usage resync. *)
Theorem update_preference_shortcuts auth id dto w u :
  UserStore.get id live (users w) = Some u →
  (UserAdminUpdateDto.memoriesEnabled dto ≠ None
   ∨ UserAdminUpdateDto.avatarColor dto ≠ None) →
  let current := getPreferences u in
  let newPreferences :=
    {| Preferences.memories_enabled :=
         default (Preferences.memories_enabled current)
                 (UserAdminUpdateDto.memoriesEnabled dto);
       Preferences.avatar_color :=
         default (Preferences.avatar_color current)
                 (UserAdminUpdateDto.avatarColor dto) |} in
  let item :=
    {| UserMetadataItem.key := PREFERENCES;
       UserMetadataItem.value := getPreferencesPartial u newPreferences |} in
  let dto' :=
    {| UserAdminUpdateDto.email := UserAdminUpdateDto.email dto;
       UserAdminUpdateDto.password := UserAdminUpdateDto.password dto;
       UserAdminUpdateDto.name := UserAdminUpdateDto.name dto;
       UserAdminUpdateDto.isAdmin := UserAdminUpdateDto.isAdmin dto;
       UserAdminUpdateDto.shouldChangePassword :=
         UserAdminUpdateDto.shouldChangePassword dto;
       UserAdminUpdateDto.quotaSizeInBytes :=
         UserAdminUpdateDto.quotaSizeInBytes dto;
       UserAdminUpdateDto.memoriesEnabled := None;
       UserAdminUpdateDto.avatarColor := None |} in
  let r := UserAdminService.update auth id dto w in
  ∃ sync us1 u1,
    calls r.2
    = calls w ++ [UserGet id live] ++ sync
              ++ [UserUpsertMetadata id item;
                  CoreUpdateUser (AuthDto.user auth) id dto']
    ∧ (sync = [] ∨ sync = [UserSyncUsage id])
    ∧ users r.2 = (core_updateUser (AuthDto.user auth) id dto' us1).2
    ∧ us1 !! id = Some u1
    ∧ User.metadata u1 = UserStore.upsert item (User.metadata u).
Proof.
  intros Hget Hshort. simpl.
  rewrite (update_run auth id dto w u Hget). simpl.
  pose proof (get_lookup _ _ _ _ Hget) as Hu.
  assert (has_shortcut dto = true) as ->.
  { unfold has_shortcut.
    destruct (UserAdminUpdateDto.memoriesEnabled dto),
             (UserAdminUpdateDto.avatarColor dto); try reflexivity.
    destruct Hshort; contradiction. }
  rewrite overlay_eq. simpl.
  match goal with
  | |- context [table_before_patch id u ?s true ?it (users w)] =>
      destruct (table_before_patch_lookup id u s true it (users w) Hu)
        as (u1 & Hu1 & _ & Hmeta & _)
  end.
  exists (if resyncs u dto then [UserSyncUsage id] else []).
  eexists _, u1.
  split; [|split; [|split; [reflexivity|split; [exact Hu1|by apply Hmeta]]]].
  - destruct (resyncs u dto); reflexivity.
  - destruct (resyncs u dto); [right | left]; reflexivity.
Qed.

(** *** Creating *)

Lemma create_run dto w u us1 :
  core_createUser (UserAdminCreateDto.rest_of dto) (users w) = (inr u, us1) →
  (UserAdminCreateDto.memoriesEnabled dto = Some false →
   us1 !! User.id u = Some u ∧ User.deletedAt u = None) →
  let off := bool_decide (UserAdminCreateDto.memoriesEnabled dto = Some false) in
  let item :=
    {| UserMetadataItem.key := PREFERENCES;
       UserMetadataItem.value :=
         {| Preferences.p_memories_enabled := Some false;
            Preferences.p_avatar_color := None |} |} in
  let user :=
    if off
    then User.set_metadata (UserStore.upsert item (User.metadata u)) u
    else u in
  let tempPassword :=
    if User.shouldChangePassword u
    then Some (UserAdminCreateDto.password dto) else None in
  let queued :=
    if truthy (UserAdminCreateDto.notify dto)
    then [NOTIFY_SIGNUP (User.id u) tempPassword] else [] in
  UserAdminService.create dto w
  = (inr (mapUser user),
     {| users := if off then <[User.id u := user]> us1 else us1;
        albums := albums w;
        jobs := jobs w ++ queued;
        clock := clock w;
        calls := calls w ++ [CoreCreateUser (UserAdminCreateDto.rest_of dto)]
                 ++ (if off
                     then [UserUpsertMetadata (User.id u) item;
                           UserGet (User.id u) live]
                     else [])
                 ++ (JobQueue <$> queued) |}).
Proof.
  intros Hcore Hstored. simpl.
  unfold UserAdminService.create, bind, userCore.createUser. simpl.
  rewrite Hcore. simpl.
  destruct (bool_decide (UserAdminCreateDto.memoriesEnabled dto = Some false))
    eqn:Hoff.
  - apply bool_decide_eq_true in Hoff. destruct (Hstored Hoff) as [Hu Hd].
    unfold userRepository.upsertMetadata, UserStore.upsertMetadata. simpl.
    rewrite Hu.
    erewrite findOrFail_found
      by (apply get_live; [apply lookup_insert_eq | exact Hd]).
    simpl.
    destruct (truthy (UserAdminCreateDto.notify dto)); simpl;
      unfold jobRepository.queue, ret, push_job, record, set_users; simpl;
      rewrite <- ?app_assoc, ?app_nil_r; reflexivity.
  - unfold ret at 1.
    destruct (truthy (UserAdminCreateDto.notify dto)); simpl;
      unfold jobRepository.queue, ret, push_job, record, set_users; simpl;
      rewrite <- ?app_assoc, ?app_nil_r; reflexivity.
Qed.

(** C8.  When the User Core has created and stored a user: with [notify]
    true, [create] queues exactly one NOTIFY_SIGNUP job, as its last call,
    whose payload is the id of the created user and, as [tempPassword], the
    plaintext password of the command if the created user has
    [shouldChangePassword] and undefined otherwise.  Without [notify] (false
    or absent) no job is queued at all, whether the creation succeeds or
    fails. *)
Theorem create_notify dto w :
  let r := UserAdminService.create dto w in
  (truthy (UserAdminCreateDto.notify dto) = false →
   jobs r.2 = jobs w
   ∧ ∃ new, calls r.2 = calls w ++ new ∧ ∀ j, JobQueue j ∉ new)
  ∧ (∀ u us1,
       core_createUser (UserAdminCreateDto.rest_of dto) (users w) = (inr u, us1) →
       (UserAdminCreateDto.memoriesEnabled dto = Some false →
        us1 !! User.id u = Some u ∧ User.deletedAt u = None) →
       truthy (UserAdminCreateDto.notify dto) = true →
       let tempPassword :=
         if User.shouldChangePassword u
         then Some (UserAdminCreateDto.password dto) else None in
       let job := NOTIFY_SIGNUP (User.id u) tempPassword in
       (∃ user, r.1 = inr (mapUser user)
                ∧ User.id user = User.id u
                ∧ User.shouldChangePassword user = User.shouldChangePassword u)
       ∧ jobs r.2 = jobs w ++ [job]
       ∧ ∃ pre, calls r.2 = calls w ++ pre ++ [JobQueue job]
                ∧ ∀ j, JobQueue j ∉ pre).
Proof.
  simpl. split.
  - intros Hn.
    unfold UserAdminService.create, bind, userCore.createUser. simpl.
    destruct (core_createUser _ _) as [[e|u] us1]; simpl.
    { split; [reflexivity|]. eexists. split; [reflexivity|].
      intros j Hin. no_such_call Hin. }
    rewrite Hn.
    destruct (bool_decide _); simpl.
    + unfold userRepository.upsertMetadata. simpl.
      destruct (UserStore.upsertMetadata _ _ _) as [us2|]; simpl.
      * unfold UserAdminService.findOrFail, bind, userRepository.get. simpl.
        destruct (UserStore.get _ _ _); simpl;
          (split; [reflexivity|]); eexists;
          (split; [rewrite <- !app_assoc; reflexivity|]);
          intros j Hin; no_such_call Hin.
      * split; [reflexivity|]. eexists.
        split; [rewrite <- !app_assoc; reflexivity|].
        intros j Hin. no_such_call Hin.
    + split; [reflexivity|]. eexists. split; [reflexivity|].
      intros j Hin. no_such_call Hin.
  - intros u us1 Hcore Hstored Hn.
    rewrite (create_run dto w u us1 Hcore Hstored), Hn. simpl.
    split; [|split; [reflexivity|]].
    + eexists. split; [reflexivity|].
      destruct (bool_decide _); split; reflexivity.
    + exists (CoreCreateUser (UserAdminCreateDto.rest_of dto)
              :: if bool_decide
                      (UserAdminCreateDto.memoriesEnabled dto = Some false)
                 then [UserUpsertMetadata (User.id u)
                         {| UserMetadataItem.key := PREFERENCES;
                            UserMetadataItem.value :=
                              {| Preferences.p_memories_enabled := Some false;
                                 Preferences.p_avatar_color := None |} |};
                       UserGet (User.id u) live]
                 else []).
      split.
      * destruct (bool_decide _); reflexivity.
      * intros j Hin. destruct (bool_decide _); no_such_call Hin.
Qed.

(** *** The invariant between [status] and [deletedAt] *)

Lemma merge_consistent u (p : User.partial) :
  status_consistent u → patch_paired p → status_consistent (User.merge u p).
Proof.
  unfold status_consistent, patch_paired.
  destruct p as [e n pw a s q [st|] [d|]]; simpl; tauto.
Qed.

Lemma status_patch_paired s d :
  (d ≠ None ↔ (s = DELETED ∨ s = REMOVING)) →
  patch_paired (User.status_patch s d).
Proof. intros Hp. exact Hp. Qed.

Lemma pi_ret {A} (a : A) : preserves_invariant (ret a).
Proof.
  intros w Hw. split; [exact Hw|]. exists []. simpl. rewrite app_nil_r.
  split; [reflexivity|]. intros i p Hin. by apply elem_of_nil in Hin.
Qed.

Lemma pi_throw {A} e : preserves_invariant (@throw A e).
Proof.
  intros w Hw. split; [exact Hw|]. exists []. simpl. rewrite app_nil_r.
  split; [reflexivity|]. intros i p Hin. by apply elem_of_nil in Hin.
Qed.

Lemma pi_bind {A B} (m : M A) (k : A → M B) :
  preserves_invariant m → (∀ a, preserves_invariant (k a)) →
  preserves_invariant (bind m k).
Proof.
  intros Hm Hk w Hw. unfold bind.
  destruct (Hm w Hw) as (Hw1 & new1 & Hc1 & Hp1).
  destruct (m w) as [[e|a] w1]; simpl in *.
  - split; [exact Hw1|]. eauto.
  - destruct (Hk a w1 Hw1) as (Hw2 & new2 & Hc2 & Hp2).
    split; [exact Hw2|]. exists (new1 ++ new2). split.
    + rewrite Hc2, Hc1, app_assoc. reflexivity.
    + intros i p Hin. apply elem_of_app in Hin as [Hin|Hin]; eauto.
Qed.

(** A step that keeps the user table and logs one call that is no row
    update. *)
Lemma pi_logged {A} (m : M A) (c : Call) :
  (∀ i p, c ≠ UserUpdate i p) →
  (∀ w, store_consistent (users w) → store_consistent (users (m w).2)) →
  (∀ w, calls (m w).2 = calls w ++ [c]) →
  preserves_invariant m.
Proof.
  intros Hc Hus Hcalls w Hw. split; [by apply Hus|].
  exists [c]. split; [apply Hcalls|].
  intros i p Hin. apply list_elem_of_singleton in Hin.
  exfalso. apply (Hc i p). symmetry. exact Hin.
Qed.

Lemma pi_get id options : preserves_invariant (userRepository.get id options).
Proof. by apply (pi_logged _ (UserGet id options)). Qed.

Lemma pi_getList options : preserves_invariant (userRepository.getList options).
Proof. by apply (pi_logged _ (UserGetList options)). Qed.

Lemma pi_softDeleteAll id : preserves_invariant (albumRepository.softDeleteAll id).
Proof. by apply (pi_logged _ (AlbumSoftDeleteAll id)). Qed.

Lemma pi_restoreAll id : preserves_invariant (albumRepository.restoreAll id).
Proof. by apply (pi_logged _ (AlbumRestoreAll id)). Qed.

Lemma pi_queue item : preserves_invariant (jobRepository.queue item).
Proof. by apply (pi_logged _ (JobQueue item)). Qed.

Lemma pi_newDate : preserves_invariant newDate.
Proof. intros w Hw. apply (pi_ret (clock w) w Hw). Qed.

Lemma pi_syncUsage id : preserves_invariant (userRepository.syncUsage id).
Proof.
  apply (pi_logged _ (UserSyncUsage id)); [done| |done].
  intros w Hw. simpl. unfold UserStore.syncUsage.
  destruct (users w !! id) as [u|] eqn:Hu; [|exact Hw].
  apply map_Forall_insert_2; [|exact Hw].
  exact (map_Forall_lookup_1 _ _ _ _ Hw Hu).
Qed.

Lemma pi_upsertMetadata id item :
  preserves_invariant (userRepository.upsertMetadata id item).
Proof.
  apply (pi_logged _ (UserUpsertMetadata id item)); [done| |].
  - intros w Hw. unfold userRepository.upsertMetadata, UserStore.upsertMetadata.
    simpl. destruct (users w !! id) as [u|] eqn:Hu; [|exact Hw].
    apply map_Forall_insert_2; [|exact Hw].
    exact (map_Forall_lookup_1 _ _ _ _ Hw Hu).
  - intros w. unfold userRepository.upsertMetadata. simpl.
    destruct (UserStore.upsertMetadata _ _ _); reflexivity.
Qed.

Lemma pi_update id (p : User.partial) :
  patch_paired p → preserves_invariant (userRepository.update id p).
Proof.
  intros Hp w Hw. unfold userRepository.update, UserStore.update. simpl.
  destruct (users w !! id) as [u|] eqn:Hu; simpl.
  - split.
    + apply map_Forall_insert_2; [|exact Hw].
      apply merge_consistent; [|exact Hp].
      exact (map_Forall_lookup_1 _ _ _ _ Hw Hu).
    + exists [UserUpdate id p]. split; [reflexivity|].
      intros i q Hin. apply list_elem_of_singleton in Hin. congruence.
  - split; [exact Hw|].
    exists [UserUpdate id p]. split; [reflexivity|].
    intros i q Hin. apply list_elem_of_singleton in Hin. congruence.
Qed.

Lemma pi_createUser dto :
  core_keeps_consistent → preserves_invariant (userCore.createUser dto).
Proof.
  intros Hcore. apply (pi_logged _ (CoreCreateUser dto)); [done| |].
  - intros w Hw. unfold userCore.createUser. simpl.
    pose proof (proj1 (Hcore _ Hw) dto) as Hus.
    destruct (core_createUser dto (users w)). exact Hus.
  - intros w. unfold userCore.createUser. simpl.
    destruct (core_createUser dto (users w)). reflexivity.
Qed.

Lemma pi_updateUser a id dto :
  core_keeps_consistent → preserves_invariant (userCore.updateUser a id dto).
Proof.
  intros Hcore. apply (pi_logged _ (CoreUpdateUser a id dto)); [done| |].
  - intros w Hw. unfold userCore.updateUser. simpl.
    pose proof (proj2 (Hcore _ Hw) a id dto) as Hus.
    destruct (core_updateUser a id dto (users w)). exact Hus.
  - intros w. unfold userCore.updateUser. simpl.
    destruct (core_updateUser a id dto (users w)). reflexivity.
Qed.

Lemma pi_findOrFail id options :
  preserves_invariant (UserAdminService.findOrFail id options).
Proof.
  apply pi_bind; [apply pi_get|].
  intros [u|]; [apply pi_ret | apply pi_throw].
Qed.

Lemma get_live_visible id us u :
  UserStore.get id live us = Some u → User.deletedAt u = None.
Proof.
  unfold UserStore.get, UserStore.visible. simpl.
  destruct (us !! id) as [v|]; [|discriminate].
  destruct (bool_decide (User.deletedAt v = None)) eqn:Hd; [|discriminate].
  intros [= ->]. by apply bool_decide_eq_true in Hd.
Qed.

Lemma same_lifecycle_refl us : same_lifecycle us us.
Proof. intros k. reflexivity. Qed.

Lemma same_lifecycle_insert us us' id u u' :
  same_lifecycle us us' → us' !! id = Some u → lifecycle u' = lifecycle u →
  same_lifecycle us (<[id := u']> us').
Proof.
  intros Hs Hu Hl k. destruct (decide (k = id)) as [->|Hne].
  - rewrite lookup_insert_eq, <- (Hs id), Hu. simpl. by rewrite Hl.
  - rewrite lookup_insert_ne by done. apply Hs.
Qed.

Lemma same_lifecycle_consistent us us' :
  same_lifecycle us us' → store_consistent us → store_consistent us'.
Proof.
  intros Hs Hus k u' Hk. pose proof (Hs k) as Hl. rewrite Hk in Hl.
  destruct (us !! k) as [u|] eqn:Hu; [|discriminate].
  pose proof (map_Forall_lookup_1 _ _ _ _ Hus Hu) as Hc.
  injection Hl as Hst Hd. unfold status_consistent in *. simpl in Hc.
  rewrite Hst, Hd. exact Hc.
Qed.

Lemma table_before_patch_lifecycle id u sync short item us :
  us !! id = Some u →
  same_lifecycle us (table_before_patch id u sync short item us).
Proof.
  intros Hu. unfold table_before_patch.
  destruct sync, short;
    repeat (eapply same_lifecycle_insert;
            [|first [apply lookup_insert_eq | exact Hu]|reflexivity]);
    apply same_lifecycle_refl.
Qed.

Lemma pi_delete auth id dto :
  preserves_invariant (UserAdminService.delete auth id dto).
Proof.
  unfold UserAdminService.delete.
  apply pi_bind; [apply pi_findOrFail|]. intros found.
  destruct (User.isAdmin found); [apply pi_throw|].
  apply pi_bind; [apply pi_softDeleteAll|]. intros _.
  apply pi_bind; [apply pi_newDate|]. intros now.
  apply pi_bind.
  - apply pi_update, status_patch_paired.
    destruct (truthy _); split; intros; try discriminate; auto.
  - intros user. apply pi_bind; [|intros _; apply pi_ret].
    destruct (truthy _); [apply pi_queue | apply pi_ret].
Qed.

Lemma pi_restore auth id :
  preserves_invariant (UserAdminService.restore auth id).
Proof.
  unfold UserAdminService.restore.
  apply pi_bind; [apply pi_findOrFail|]. intros _.
  apply pi_bind; [apply pi_restoreAll|]. intros _.
  apply pi_bind; [|intros user; apply pi_ret].
  apply pi_update, status_patch_paired.
  split; [done|]. intros [?|?]; discriminate.
Qed.

Lemma pi_search auth dto :
  preserves_invariant (UserAdminService.search auth dto).
Proof.
  unfold UserAdminService.search.
  apply pi_bind; [apply pi_getList|]. intros l. apply pi_ret.
Qed.

Lemma pi_create dto :
  core_keeps_consistent → preserves_invariant (UserAdminService.create dto).
Proof.
  intros Hcore. unfold UserAdminService.create.
  apply pi_bind; [by apply pi_createUser|]. intros u.
  apply pi_bind.
  - destruct (bool_decide _); [|apply pi_ret].
    apply pi_bind; [apply pi_upsertMetadata|]. intros _.
    apply pi_findOrFail.
  - intros user. apply pi_bind; [|intros _; apply pi_ret].
    destruct (truthy _); [apply pi_queue | apply pi_ret].
Qed.

Lemma pi_update_op auth id dto :
  core_keeps_consistent →
  preserves_invariant (UserAdminService.update auth id dto).
Proof.
  intros Hcore. unfold UserAdminService.update.
  apply pi_bind; [apply pi_findOrFail|]. intros u.
  apply pi_bind.
  { destruct (_ && _); [apply pi_syncUsage | apply pi_ret]. }
  intros _. apply pi_bind.
  - destruct (_ || _); [|apply pi_ret].
    destruct (UserAdminService.overlay _ _) as [prefs dto'].
    apply pi_bind; [apply pi_upsertMetadata|]. intros _. apply pi_ret.
  - intros dto'. apply pi_bind; [by apply pi_updateUser|].
    intros updated. apply pi_ret.
Qed.

(** What [delete] writes: on every path the only row update it can issue is
    the one of its own id with the patch [{ status, deletedAt: now }], and
    when the lookup resolves to a non-admin it issues exactly that one. *)
Lemma delete_writes auth id dto w :
  let force := UserAdminDeleteDto.force dto in
  let s := if truthy force then REMOVING else DELETED in
  let patch := User.status_patch s (Some (clock w)) in
  let r := UserAdminService.delete auth id dto w in
  ∃ new, calls r.2 = calls w ++ new
    ∧ (∀ i p, UserUpdate i p ∈ new → i = id ∧ p = patch)
    ∧ (∀ u, UserStore.get id live (users w) = Some u →
            User.isAdmin u = false →
            new = [UserGet id live; AlbumSoftDeleteAll id; UserUpdate id patch]
                  ++ (if truthy force
                      then [JobQueue (USER_DELETION (User.id u) force)] else [])
            ∧ ∃ u', users r.2 !! id = Some u'
                    ∧ User.status u' = s
                    ∧ User.deletedAt u' = Some (clock w)).
Proof.
  simpl. destruct (UserStore.get id live (users w)) as [u|] eqn:Hget.
  - destruct (User.isAdmin u) eqn:Ha.
    + unfold UserAdminService.delete, bind.
      rewrite (findOrFail_found id live w u Hget), Ha. simpl.
      exists [UserGet id live]. split; [reflexivity|]. split.
      * intros i p Hin. no_such_call Hin.
      * intros u' [= <-] Hna. congruence.
    + pose proof (get_lookup _ _ _ _ Hget) as Hu.
      pose proof (get_live_visible _ _ _ Hget) as Hd.
      rewrite (delete_run auth id dto w u Hu Hd Ha). simpl.
      eexists. split; [reflexivity|]. split.
      * intros i p Hin.
        apply elem_of_cons in Hin as [Hin|Hin]; [discriminate|].
        apply elem_of_cons in Hin as [Hin|Hin]; [discriminate|].
        apply elem_of_cons in Hin as [Hin|Hin]; [by injection Hin as -> ->|].
        destruct (truthy _); simpl in Hin; no_such_call Hin.
      * intros u' [= <-] _. split.
        -- destruct (truthy _); reflexivity.
        -- eexists. split; [apply lookup_insert_eq|]. split; reflexivity.
  - unfold UserAdminService.delete, bind.
    rewrite (findOrFail_missing id live w Hget). simpl.
    exists [UserGet id live]. split; [reflexivity|]. split.
    + intros i p Hin. no_such_call Hin.
    + intros u' [=].
Qed.

(** What [restore] writes: on every path the only row update it can issue
    is the one of its own id with the patch [{ deletedAt: null, status:
    ACTIVE }], and when the id has a row it issues exactly that one. *)
Lemma restore_writes auth id w :
  let patch := User.status_patch ACTIVE None in
  let r := UserAdminService.restore auth id w in
  ∃ new, calls r.2 = calls w ++ new
    ∧ (∀ i p, UserUpdate i p ∈ new → i = id ∧ p = patch)
    ∧ (∀ u, users w !! id = Some u →
            new = [UserGet id any; AlbumRestoreAll id; UserUpdate id patch]
            ∧ ∃ u', users r.2 !! id = Some u'
                    ∧ User.status u' = ACTIVE
                    ∧ User.deletedAt u' = None).
Proof.
  simpl. destruct (users w !! id) as [u|] eqn:Hu.
  - rewrite (restore_run auth id w u Hu). simpl.
    eexists. split; [reflexivity|]. split.
    + intros i p Hin.
      apply elem_of_cons in Hin as [Hin|Hin]; [discriminate|].
      apply elem_of_cons in Hin as [Hin|Hin]; [discriminate|].
      apply elem_of_cons in Hin as [Hin|Hin]; [by injection Hin as -> ->|].
      no_such_call Hin.
    + intros u' [= <-]. split; [reflexivity|].
      eexists. split; [apply lookup_insert_eq|]. split; reflexivity.
  - unfold UserAdminService.restore, bind.
    rewrite (findOrFail_missing id any w) by (by rewrite get_any). simpl.
    exists [UserGet id any]. split; [reflexivity|]. split.
    + intros i p Hin. no_such_call Hin.
    + intros u' [=].
Qed.

(** [update] issues no row update of its own, and what it does before the
    User Core call leaves [status] and [deletedAt] of every row as they
    were: the table it ends with is the table it started with (lookup
    failed) or the one the User Core made of such a table. *)
Lemma update_writes auth id dto w :
  let r := UserAdminService.update auth id dto w in
  (∃ new, calls r.2 = calls w ++ new ∧ ∀ i p, UserUpdate i p ∉ new)
  ∧ ∃ us1, same_lifecycle (users w) us1
           ∧ (users r.2 = us1
              ∨ ∃ dto', users r.2
                        = (core_updateUser (AuthDto.user auth) id dto' us1).2).
Proof.
  simpl. destruct (UserStore.get id live (users w)) as [u|] eqn:Hget.
  - rewrite (update_run auth id dto w u Hget). simpl.
    pose proof (get_lookup _ _ _ _ Hget) as Hu. split.
    + eexists. split; [reflexivity|]. intros i p Hin.
      destruct (resyncs u dto), (has_shortcut dto); simpl in Hin;
        no_such_call Hin.
    + eexists. split; cycle 1.
      { right. eexists. reflexivity. }
      apply table_before_patch_lifecycle. exact Hu.
  - unfold UserAdminService.update, bind.
    rewrite (findOrFail_missing id live w Hget). simpl. split.
    + exists [UserGet id live]. split; [reflexivity|].
      intros i p Hin. no_such_call Hin.
    + exists (users w). split; [apply same_lifecycle_refl | by left].
Qed.

(** [create] issues no row update of its own, and what it does after the
    User Core call leaves [status] and [deletedAt] of every row as the User
    Core left them. *)
Lemma create_writes dto w :
  let r := UserAdminService.create dto w in
  (∃ new, calls r.2 = calls w ++ new ∧ ∀ i p, UserUpdate i p ∉ new)
  ∧ same_lifecycle
      (core_createUser (UserAdminCreateDto.rest_of dto) (users w)).2
      (users r.2).
Proof.
  simpl. unfold UserAdminService.create, bind, userCore.createUser. simpl.
  destruct (core_createUser _ _) as [[e|u] us1]; simpl.
  { split; [|apply same_lifecycle_refl].
    eexists. split; [reflexivity|]. intros i p Hin. no_such_call Hin. }
  destruct (bool_decide _); simpl.
  - unfold userRepository.upsertMetadata, UserStore.upsertMetadata. simpl.
    destruct (us1 !! User.id u) as [u0|] eqn:Hu0; simpl.
    + unfold UserAdminService.findOrFail, bind, userRepository.get. simpl.
      assert (same_lifecycle us1
                (<[User.id u :=
                     User.set_metadata
                       (UserStore.upsert
                          {| UserMetadataItem.key := PREFERENCES;
                             UserMetadataItem.value :=
                               {| Preferences.p_memories_enabled := Some false;
                                  Preferences.p_avatar_color := None |} |}
                          (User.metadata u0)) u0]> us1)) as Hsame.
      { eapply same_lifecycle_insert;
          [apply same_lifecycle_refl | exact Hu0 | reflexivity]. }
      destruct (UserStore.get _ _ _); simpl;
        [destruct (truthy _); simpl|];
        (split; [|exact Hsame]); eexists;
        (split; [rewrite <- ?app_assoc; reflexivity|]);
        intros i p Hin; no_such_call Hin.
    + split; [|apply same_lifecycle_refl]. eexists.
      split; [rewrite <- ?app_assoc; reflexivity|].
      intros i p Hin. no_such_call Hin.
  - destruct (truthy _); simpl;
      (split; [|apply same_lifecycle_refl]); eexists;
      (split; [rewrite <- ?app_assoc; reflexivity|]);
      intros i p Hin; no_such_call Hin.
Qed.

(** C5.  The invariant that [deletedAt] is set exactly when the status is
    DELETED or REMOVING is kept by every operation of the service, and the
    two columns are only ever written together:

    - [delete] writes them in one row update, [{ status, deletedAt: now }]
      with status REMOVING (forced) or DELETED, so a non-null [deletedAt]:
      on every path this is the only row update it can issue, and when the
      lookup resolves to a non-admin it issues exactly this one and the row
      then has that status and that timestamp;
    - [restore] writes them in one row update, [{ deletedAt: null, status:
      ACTIVE }]: the only row update it can issue, issued exactly once when
      the id has a row, which is then ACTIVE with [deletedAt] null;
    - [search], [create] and [update] issue no row update at all, and the
      steps [create] and [update] take themselves leave both columns of
      every row untouched;
    - hence [delete], [restore] and [search] keep the invariant, and so do
      [create] and [update] given that the User Core, to which they hand the
      rest of their work, keeps it. *)
Theorem status_deletedAt_invariant :
  (∀ auth id dto w,
     let force := UserAdminDeleteDto.force dto in
     let s := if truthy force then REMOVING else DELETED in
     let patch := User.status_patch s (Some (clock w)) in
     let r := UserAdminService.delete auth id dto w in
     ∃ new, calls r.2 = calls w ++ new
       ∧ (∀ i p, UserUpdate i p ∈ new → i = id ∧ p = patch)
       ∧ (∀ u, UserStore.get id live (users w) = Some u →
               User.isAdmin u = false →
               new = [UserGet id live; AlbumSoftDeleteAll id;
                      UserUpdate id patch]
                     ++ (if truthy force
                         then [JobQueue (USER_DELETION (User.id u) force)]
                         else [])
               ∧ ∃ u', users r.2 !! id = Some u'
                       ∧ User.status u' = s
                       ∧ User.deletedAt u' = Some (clock w)))
  ∧ (∀ auth id w,
       let patch := User.status_patch ACTIVE None in
       let r := UserAdminService.restore auth id w in
       ∃ new, calls r.2 = calls w ++ new
         ∧ (∀ i p, UserUpdate i p ∈ new → i = id ∧ p = patch)
         ∧ (∀ u, users w !! id = Some u →
                 new = [UserGet id any; AlbumRestoreAll id; UserUpdate id patch]
                 ∧ ∃ u', users r.2 !! id = Some u'
                         ∧ User.status u' = ACTIVE
                         ∧ User.deletedAt u' = None))
  ∧ (∀ auth dto w,
       let r := UserAdminService.search auth dto w in
       users r.2 = users w
       ∧ ∃ new, calls r.2 = calls w ++ new ∧ ∀ i p, UserUpdate i p ∉ new)
  ∧ (∀ dto w,
       let r := UserAdminService.create dto w in
       (∃ new, calls r.2 = calls w ++ new ∧ ∀ i p, UserUpdate i p ∉ new)
       ∧ same_lifecycle
           (core_createUser (UserAdminCreateDto.rest_of dto) (users w)).2
           (users r.2))
  ∧ (∀ auth id dto w,
       let r := UserAdminService.update auth id dto w in
       (∃ new, calls r.2 = calls w ++ new ∧ ∀ i p, UserUpdate i p ∉ new)
       ∧ ∃ us1, same_lifecycle (users w) us1
                ∧ (users r.2 = us1
                   ∨ ∃ dto', users r.2
                             = (core_updateUser (AuthDto.user auth) id dto'
                                  us1).2))
  ∧ (∀ auth id dto, preserves_invariant (UserAdminService.delete auth id dto))
  ∧ (∀ auth id, preserves_invariant (UserAdminService.restore auth id))
  ∧ (∀ auth dto, preserves_invariant (UserAdminService.search auth dto))
  ∧ (core_keeps_consistent →
     (∀ dto, preserves_invariant (UserAdminService.create dto))
     ∧ (∀ auth id dto, preserves_invariant (UserAdminService.update auth id dto))).
Proof.
  split; [exact delete_writes|].
  split; [exact restore_writes|].
  split.
  { intros auth dto w. simpl. split; [reflexivity|].
    exists [UserGetList
              {| withDeleted := UserAdminSearchDto.withDeleted dto |}].
    split; [reflexivity|]. intros i p Hin. no_such_call Hin. }
  split; [exact create_writes|].
  split; [exact update_writes|].
  split; [exact pi_delete|].
  split; [exact pi_restore|].
  split; [exact pi_search|].
  intros Hcore. split.
  - intros dto. by apply pi_create.
  - intros auth id dto. by apply pi_update_op.
Qed.

End Properties.

(** ** Further properties of the service *)

Section Lifecycle.
Context `{!PreferenceUtils, !UserCore, !ResponseMappers, !UsageSource}.

Implicit Types (w : World) (u : User.t) (id : string) (us : gmap string User.t).

Notation "'live'" := {| withDeleted := None |}.
Notation "'any'" := {| withDeleted := Some true |}.

Lemma get_live_inv id us u :
  UserStore.get id live us = Some u → us !! id = Some u ∧ User.deletedAt u = None.
Proof.
  unfold UserStore.get, UserStore.visible. simpl.
  destruct (us !! id) as [v|]; [|discriminate].
  destruct (bool_decide (User.deletedAt v = None)) eqn:Hd; [|discriminate].
  intros [= ->]. apply bool_decide_eq_true in Hd. done.
Qed.


Lemma softDeleteAll_deleted id now (al : list Album.t) (a : Album.t) :
  a ∈ AlbumStore.softDeleteAll id now al → Album.ownerId a = id →
  Album.deletedAt a ≠ None.
Proof.
  unfold AlbumStore.softDeleteAll. intros Hin Ho.
  apply list_elem_of_fmap in Hin as (b & -> & _).
  destruct (bool_decide (Album.ownerId b = id)) eqn:Hb.
  - destruct (Album.deletedAt b) eqn:Hd; simpl; [rewrite Hd|]; discriminate.
  - apply bool_decide_eq_false in Hb. contradiction.
Qed.

Lemma softDeleteAll_others id now (al : list Album.t) (a : Album.t) :
  a ∈ al → Album.ownerId a ≠ id → a ∈ AlbumStore.softDeleteAll id now al.
Proof.
  intros Hin Ho. unfold AlbumStore.softDeleteAll.
  apply list_elem_of_fmap. exists a. split; [|done].
  rewrite bool_decide_eq_false_2; done.
Qed.



(** *** Lookups that do not resolve *)

(** X1.  An operation whose lookup does not resolve fails with "User not
    found" and has no effect but the lookup itself: [update] and [delete]
    when the id has no row or a soft-deleted row, [restore] when the id has
    no row.  No usage resync, no metadata upsert, no User Core call, no album
    call, no row update and no job is made. *)
Theorem unresolved_lookup_no_effect auth id w :
  let failed (r : (HttpException + UserResponseDto) * World) options :=
    r.1 = inl (BadRequestException "User not found")
    ∧ users r.2 = users w ∧ albums r.2 = albums w ∧ jobs r.2 = jobs w
    ∧ calls r.2 = calls w ++ [UserGet id options] in
  (UserStore.get id live (users w) = None →
   (∀ dto, failed (UserAdminService.update auth id dto w) live)
   ∧ (∀ dto, failed (UserAdminService.delete auth id dto w) live))
  ∧ (users w !! id = None → failed (UserAdminService.restore auth id w) any).
Proof.
  simpl. split.
  - intros Hget. split; intros dto.
    + unfold UserAdminService.update, bind.
      rewrite (findOrFail_missing id live w Hget). repeat split.
    + unfold UserAdminService.delete, bind.
      rewrite (findOrFail_missing id live w Hget). repeat split.
  - intros Hu. unfold UserAdminService.restore, bind.
    rewrite (findOrFail_missing id any w) by (by rewrite get_any).
    repeat split.
Qed.

(** *** What [delete] and [restore] leave alone *)

(** X2.  [delete] changes at most the row of the id it is given, and not
    even that one when it is an administrator or already soft-deleted: on
    every path, success or failure, every other row and every administrator
    row is found unchanged afterwards. *)
Theorem delete_rows_untouched auth id dto w k u :
  users w !! k = Some u →
  (k ≠ id ∨ User.isAdmin u = true ∨ User.deletedAt u ≠ None) →
  users (UserAdminService.delete auth id dto w).2 !! k = Some u.
Proof.
  intros Hk Hcase.
  destruct (UserStore.get id live (users w)) as [v|] eqn:Hget.
  - destruct (get_live_inv _ _ _ Hget) as [Hv Hd].
    destruct (User.isAdmin v) eqn:Ha.
    + unfold UserAdminService.delete, bind.
      rewrite (findOrFail_found id live w v Hget), Ha. exact Hk.
    + rewrite (delete_run auth id dto w v Hv Hd Ha). simpl.
      destruct (decide (k = id)) as [->|Hne].
      * rewrite Hv in Hk. injection Hk as ->.
        destruct Hcase as [Hc | [Hc | Hc]]; [done | congruence | done].
      * rewrite lookup_insert_ne by done. exact Hk.
  - unfold UserAdminService.delete, bind.
    rewrite (findOrFail_missing id live w Hget). exact Hk.
Qed.

(** X3.  [restore] never touches the job queue, the rows of other users or
    the albums of other users, on any path: in particular it does not take
    back a USER_DELETION job that a forced [delete] has queued. *)
Theorem restore_frame auth id w :
  let r := UserAdminService.restore auth id w in
  jobs r.2 = jobs w
  ∧ (∀ k, k ≠ id → users r.2 !! k = users w !! k)
  ∧ (∀ a, a ∈ albums w → Album.ownerId a ≠ id → a ∈ albums r.2).
Proof.
  simpl. destruct (users w !! id) as [u|] eqn:Hu.
  - rewrite (restore_run auth id w u Hu). simpl. repeat split.
    + intros k Hk. by rewrite lookup_insert_ne.
    + intros a. apply restoreAll_others.
  - unfold UserAdminService.restore, bind.
    rewrite (findOrFail_missing id any w) by (by rewrite get_any).
    simpl. split; [reflexivity|]. split; [by intros|].
    intros a Hin _. exact Hin.
Qed.

(** *** The album cascade of [delete] *)

(** X4.  A successful [delete], forced or not, soft-deletes the albums of
    the user before it writes the user's row: afterwards every album of that
    user has [deletedAt] set, the albums of other users are as before, and
    in the call log the album call comes between the lookup and the row
    update. *)
Theorem delete_soft_deletes_albums auth id dto w u :
  users w !! id = Some u →
  User.deletedAt u = None →
  User.isAdmin u = false →
  let r := UserAdminService.delete auth id dto w in
  (∀ a, a ∈ albums r.2 → Album.ownerId a = id → Album.deletedAt a ≠ None)
  ∧ (∀ a, a ∈ albums w → Album.ownerId a ≠ id → a ∈ albums r.2)
  ∧ length (albums r.2) = length (albums w)
  ∧ ∃ patch rest,
      calls r.2
      = calls w ++ [UserGet id live; AlbumSoftDeleteAll id; UserUpdate id patch]
                ++ rest.
Proof.
  intros Hu Hd Ha. simpl. rewrite (delete_run auth id dto w u Hu Hd Ha). simpl.
  split; [|split; [|split]].
  - intros a. apply softDeleteAll_deleted.
  - intros a. apply softDeleteAll_others.
  - unfold AlbumStore.softDeleteAll. apply length_fmap.
  - eexists _, _. reflexivity.
Qed.

(** *** Composing [delete] and [restore] *)


(** X6.  A user cannot be deleted twice: after a successful [delete], forced
    or not, a second [delete] of the same id, with any command, fails with
    "User not found" and changes neither the user table, nor the albums, nor
    the job queue; in particular a soft delete cannot be turned into a forced
    one. *)
Theorem delete_twice_not_found auth id dto dto' w u :
  users w !! id = Some u →
  User.deletedAt u = None →
  User.isAdmin u = false →
  let r1 := UserAdminService.delete auth id dto w in
  let r2 := UserAdminService.delete auth id dto' r1.2 in
  (∃ v, r1.1 = inr v)
  ∧ r2.1 = inl (BadRequestException "User not found")
  ∧ users r2.2 = users r1.2
  ∧ albums r2.2 = albums r1.2
  ∧ jobs r2.2 = jobs r1.2.
Proof.
  intros Hu Hd Ha. simpl.
  rewrite (delete_run auth id dto w u Hu Hd Ha). simpl.
  split; [eauto|].
  unfold UserAdminService.delete, bind.
  rewrite findOrFail_missing; [repeat split|].
  simpl. eapply get_live_deleted; [apply lookup_insert_eq|]. discriminate.
Qed.

(** *** [create]: disabled memories, and a rejected creation *)

Lemma upsert_item (item : UserMetadataItem.t) (items : list UserMetadataItem.t) :
  item ∈ UserStore.upsert item items
  ∧ ∀ it, it ∈ UserStore.upsert item items →
          UserMetadataItem.key it = UserMetadataItem.key item → it = item.
Proof.
  unfold UserStore.upsert. split.
  - apply elem_of_app. right. apply list_elem_of_singleton. reflexivity.
  - intros it Hin Hkey. apply elem_of_app in Hin as [Hin|Hin].
    + apply list_elem_of_In, filter_In in Hin as [_ Hne].
      apply negb_true_iff, bool_decide_eq_false in Hne. contradiction.
    + by apply list_elem_of_singleton in Hin.
Qed.

(** X7.  [create] writes preferences only when the command says
    [memoriesEnabled: false].  With [memoriesEnabled] true or absent it makes
    no metadata upsert and no lookup, on any path, and the user table is the
    one the User Core left.  With [memoriesEnabled] false, once the User Core
    has created and stored a user, [create] upserts the PREFERENCES item
    [{ memories: { enabled: false } }] for that user, fetches the row again
    and returns it: the stored and returned user carries that item as its
    only PREFERENCES item. *)
Theorem create_memories_disabled dto w :
  let rest := UserAdminCreateDto.rest_of dto in
  let item :=
    {| UserMetadataItem.key := PREFERENCES;
       UserMetadataItem.value :=
         {| Preferences.p_memories_enabled := Some false;
            Preferences.p_avatar_color := None |} |} in
  let r := UserAdminService.create dto w in
  (UserAdminCreateDto.memoriesEnabled dto ≠ Some false →
   users r.2 = (core_createUser rest (users w)).2
   ∧ ∃ new, calls r.2 = calls w ++ new
            ∧ (∀ i it, UserUpsertMetadata i it ∉ new)
            ∧ (∀ i o, UserGet i o ∉ new))
  ∧ (∀ u us1,
       core_createUser rest (users w) = (inr u, us1) →
       us1 !! User.id u = Some u →
       User.deletedAt u = None →
       UserAdminCreateDto.memoriesEnabled dto = Some false →
       let user := User.set_metadata (UserStore.upsert item (User.metadata u)) u in
       r.1 = inr (mapUser user)
       ∧ users r.2 = <[User.id u := user]> us1
       ∧ item ∈ User.metadata user
       ∧ (∀ it, it ∈ User.metadata user →
                UserMetadataItem.key it = PREFERENCES → it = item)).
Proof.
  simpl. split.
  - intros Hm.
    unfold UserAdminService.create, bind, userCore.createUser. simpl.
    destruct (core_createUser _ _) as [[e|u] us1]; simpl.
    { split; [reflexivity|]. eexists. split; [reflexivity|].
      split; intros ? ? Hin; no_such_call Hin. }
    rewrite bool_decide_eq_false_2 by exact Hm. unfold ret at 1.
    destruct (truthy _); simpl;
      (split; [reflexivity|]); eexists;
      (split; [rewrite <- ?app_assoc; reflexivity|]);
      split; intros ? ? Hin; no_such_call Hin.
  - intros u us1 Hcore Hu Hd Hm.
    rewrite (create_run dto w u us1 Hcore) by (intros _; done).
    rewrite bool_decide_eq_true_2 by exact Hm. simpl.
    split; [reflexivity|]. split; [reflexivity|]. apply upsert_item.
Qed.

(** X8.  When the User Core refuses to create the user, [create] fails with
    the exception of the User Core and stops there: no metadata is written
    and no signup job is queued, even with [notify] set; the only call made
    is the User Core call. *)
Theorem create_rejected dto w e us1 :
  core_createUser (UserAdminCreateDto.rest_of dto) (users w) = (inl e, us1) →
  let r := UserAdminService.create dto w in
  r.1 = inl e
  ∧ users r.2 = us1
  ∧ albums r.2 = albums w
  ∧ jobs r.2 = jobs w
  ∧ calls r.2 = calls w ++ [CoreCreateUser (UserAdminCreateDto.rest_of dto)].
Proof.
  intros Hcore. simpl.
  unfold UserAdminService.create, bind, userCore.createUser. simpl.
  rewrite Hcore. repeat split.
Qed.

(** *** [update]: rejected patches, plain patches, and what is left alone *)


(** X10.  An [update] that carries no preference shortcut and no quota that
    triggers a resync (no quota, a falsy one, or the stored one) is a plain
    delegation: after the lookup, the User Core receives the command and the
    user table unchanged, its result (user or exception) is the result of
    [update], and no other call is made. *)
Theorem update_plain_delegates auth id dto w u :
  UserStore.get id live (users w) = Some u →
  UserAdminUpdateDto.memoriesEnabled dto = None →
  UserAdminUpdateDto.avatarColor dto = None →
  (truthy_number (UserAdminUpdateDto.quotaSizeInBytes dto) = false
   ∨ UserAdminUpdateDto.quotaSizeInBytes dto = Some (User.quotaSizeInBytes u)) →
  let core := core_updateUser (AuthDto.user auth) id dto (users w) in
  let r := UserAdminService.update auth id dto w in
  r.1 = match core.1 with inl e => inl e | inr u' => inr (mapUser u') end
  ∧ users r.2 = core.2
  ∧ calls r.2
    = calls w ++ [UserGet id live; CoreUpdateUser (AuthDto.user auth) id dto].
Proof.
  intros Hget Hm Hc Hq. simpl.
  rewrite (update_run auth id dto w u Hget). simpl.
  assert (has_shortcut dto = false) as ->.
  { unfold has_shortcut. rewrite Hm, Hc. reflexivity. }
  assert (resyncs u dto = false) as ->.
  { unfold resyncs, strict_ne. destruct Hq as [-> | ->]; [reflexivity|].
    rewrite bool_decide_eq_true_2 by reflexivity. apply andb_false_r. }
  unfold table_before_patch. simpl. repeat split.
Qed.

(** X11.  Neither [update] nor [create] ever touches an album, and [update]
    never queues a job; the only job [create] can add is a signup
    notification, so no USER_DELETION job comes from either: on every path,
    success or failure. *)
Theorem update_create_frame w :
  (∀ auth id dto,
     let r := UserAdminService.update auth id dto w in
     albums r.2 = albums w ∧ jobs r.2 = jobs w)
  ∧ (∀ dto,
       let r := UserAdminService.create dto w in
       albums r.2 = albums w
       ∧ (jobs r.2 = jobs w
          ∨ ∃ i p, jobs r.2 = jobs w ++ [NOTIFY_SIGNUP i p])).
Proof.
  split.
  - intros auth id dto. simpl.
    destruct (UserStore.get id live (users w)) as [u|] eqn:Hget.
    + rewrite (update_run auth id dto w u Hget). simpl. done.
    + unfold UserAdminService.update, bind.
      rewrite (findOrFail_missing id live w Hget). done.
  - intros dto. simpl.
    unfold UserAdminService.create, bind, userCore.createUser. simpl.
    destruct (core_createUser _ _) as [[e|u] us1]; simpl; [by auto|].
    destruct (bool_decide _); simpl.
    + unfold userRepository.upsertMetadata. simpl.
      destruct (UserStore.upsertMetadata _ _ _) as [us2|]; simpl; [|by auto].
      unfold UserAdminService.findOrFail, bind, userRepository.get. simpl.
      destruct (UserStore.get _ _ _); simpl; [|by auto].
      destruct (truthy _); simpl; eauto.
    + destruct (truthy _); simpl; eauto.
Qed.

(** *** [search] *)

(** X12.  [search] lists, through [mapUserAdmin], exactly the stored users
    that its [withDeleted] flag lets through: every user when the flag is
    true, only the users that are not soft-deleted when it is false or
    absent.  It writes nothing: its only call is the listing. *)
Theorem search_lists auth dto w :
  let shown := UserAdminSearchDto.withDeleted dto in
  let r := UserAdminService.search auth dto w in
  (∃ listed,
     r.1 = inr (mapUserAdmin <$> listed)
     ∧ ∀ u, u ∈ listed
            ↔ (∃ k, users w !! k = Some u)
              ∧ (truthy shown = true ∨ User.deletedAt u = None))
  ∧ users r.2 = users w ∧ albums r.2 = albums w ∧ jobs r.2 = jobs w
  ∧ calls r.2 = calls w ++ [UserGetList {| withDeleted := shown |}].
Proof.
  simpl. split; [|repeat split].
  exists (UserStore.getList
            {| withDeleted := UserAdminSearchDto.withDeleted dto |} (users w)).
  split; [reflexivity|].
  intros u. unfold UserStore.getList, UserStore.visible. simpl.
  rewrite list_elem_of_In, filter_In, <- list_elem_of_In, list_elem_of_fmap.
  rewrite orb_true_iff, bool_decide_eq_true.
  split.
  - intros [([k v] & -> & Hin) Hvis].
    apply elem_of_map_to_list in Hin. eauto.
  - intros [[k Hk] Hvis]. split; [|exact Hvis].
    exists (k, u). split; [reflexivity|]. by apply elem_of_map_to_list.
Qed.

(** *** Sequences of requests *)

Section Steps.
Variable R : relation World.
Context `{!PreOrder R}.
Hypothesis HR : respected R.

Lemma steps_ret {A} (a : A) : steps R (ret a).
Proof. intros w. reflexivity. Qed.

Lemma steps_throw {A} e : steps R (@throw A e).
Proof. intros w. reflexivity. Qed.

Lemma steps_bind {A B} (m : M A) (k : A → M B) :
  steps R m → (∀ a, steps R (k a)) → steps R (bind m k).
Proof.
  intros Hm Hk w. unfold bind. pose proof (Hm w) as Hw.
  destruct (m w) as [[e|a] w1]; simpl in *; [exact Hw|].
  transitivity w1; [exact Hw | apply Hk].
Qed.

Lemma steps_findOrFail id options :
  steps R (UserAdminService.findOrFail id options).
Proof.
  apply steps_bind; [apply (respected_get R HR)|].
  intros [u|]; [apply steps_ret | apply steps_throw].
Qed.

Lemma steps_search auth dto : steps R (UserAdminService.search auth dto).
Proof.
  apply steps_bind; [apply (respected_getList R HR)|]. intros l. apply steps_ret.
Qed.

Lemma steps_create dto : steps R (UserAdminService.create dto).
Proof.
  unfold UserAdminService.create.
  apply steps_bind; [apply (respected_createUser R HR)|]. intros u.
  apply steps_bind.
  - destruct (bool_decide _); [|apply steps_ret].
    apply steps_bind; [apply (respected_upsertMetadata R HR)|]. intros _.
    apply steps_findOrFail.
  - intros user. apply steps_bind; [|intros _; apply steps_ret].
    destruct (truthy _); [apply (respected_queue R HR) | apply steps_ret].
Qed.

Lemma steps_update auth id dto : steps R (UserAdminService.update auth id dto).
Proof.
  unfold UserAdminService.update.
  apply steps_bind; [apply steps_findOrFail|]. intros u.
  apply steps_bind.
  { destruct (_ && _); [apply (respected_syncUsage R HR) | apply steps_ret]. }
  intros _. apply steps_bind.
  - destruct (_ || _); [|apply steps_ret].
    destruct (UserAdminService.overlay _ _) as [prefs dto'].
    apply steps_bind; [apply (respected_upsertMetadata R HR)|].
    intros _. apply steps_ret.
  - intros dto'. apply steps_bind; [apply (respected_updateUser R HR)|].
    intros updated. apply steps_ret.
Qed.

Lemma steps_delete auth id dto : steps R (UserAdminService.delete auth id dto).
Proof.
  unfold UserAdminService.delete.
  apply steps_bind; [apply steps_findOrFail|]. intros found.
  destruct (User.isAdmin found); [apply steps_throw|].
  apply steps_bind; [apply (respected_softDeleteAll R HR)|]. intros _.
  apply steps_bind; [intros w; reflexivity|]. intros now.
  apply steps_bind.
  - apply (respected_update R HR).
    destruct (truthy _); split; intros; try discriminate; auto.
  - intros user. apply steps_bind; [|intros _; apply steps_ret].
    destruct (truthy _); [apply (respected_queue R HR) | apply steps_ret].
Qed.

Lemma steps_restore auth id : steps R (UserAdminService.restore auth id).
Proof.
  unfold UserAdminService.restore.
  apply steps_bind; [apply steps_findOrFail|]. intros _.
  apply steps_bind; [apply (respected_restoreAll R HR)|]. intros _.
  apply steps_bind; [|intros user; apply steps_ret].
  apply (respected_update R HR). split; [done|]. intros [?|?]; discriminate.
Qed.

Lemma steps_handle req : steps R (UserAdminController.handle req).
Proof.
  destruct req; simpl; (apply steps_bind; [|intros body; apply steps_ret]).
  - apply steps_search.
  - apply steps_create.
  - apply steps_update.
  - apply steps_delete.
  - apply steps_restore.
Qed.

Lemma steps_serve reqs w : R w (UserAdminController.serve reqs w).
Proof.
  unfold UserAdminController.serve. revert w.
  induction reqs as [|req reqs IH]; intros w; simpl; [reflexivity|].
  transitivity (UserAdminController.handle req w).2;
    [apply steps_handle | apply IH].
Qed.
End Steps.

Lemma keeps_invariant_preorder : PreOrder keeps_invariant.
Proof.
  split.
  - intros w Hw. split; [exact Hw|]. exists []. rewrite app_nil_r.
    split; [reflexivity|]. intros i p Hin. by apply elem_of_nil in Hin.
  - intros w1 w2 w3 H12 H23 Hw1.
    destruct (H12 Hw1) as (Hw2 & new1 & Hc1 & Hp1).
    destruct (H23 Hw2) as (Hw3 & new2 & Hc2 & Hp2).
    split; [exact Hw3|]. exists (new1 ++ new2). split.
    + rewrite Hc2, Hc1, app_assoc. reflexivity.
    + intros i p Hin. apply elem_of_app in Hin as [Hin|Hin]; eauto.
Qed.

Lemma keeps_invariant_respected :
  core_keeps_consistent → respected keeps_invariant.
Proof.
  intros Hcore. split.
  - apply pi_get.
  - apply pi_getList.
  - intros id s d Hp. apply pi_update, status_patch_paired, Hp.
  - apply pi_upsertMetadata.
  - apply pi_syncUsage.
  - apply pi_softDeleteAll.
  - apply pi_restoreAll.
  - apply pi_queue.
  - intros dto. by apply pi_createUser.
  - intros a id dto. by apply pi_updateUser.
Qed.

Lemma grows_preorder : PreOrder grows.
Proof.
  split.
  - intros w. repeat split; exists []; by rewrite app_nil_r.
  - intros w1 w2 w3 ([j1 Hj1] & [c1 Hc1] & Ha1 & Ht1) ([j2 Hj2] & [c2 Hc2] & Ha2 & Ht2).
    split; [|split; [|split]].
    + exists (j1 ++ j2). by rewrite Hj2, Hj1, app_assoc.
    + exists (c1 ++ c2). by rewrite Hc2, Hc1, app_assoc.
    + by rewrite Ha2.
    + by rewrite Ht2.
Qed.

Lemma grows_logged (w w' : World) (c : Call) :
  jobs w' = jobs w → calls w' = calls w ++ [c] →
  album_keys w' = album_keys w → clock w' = clock w → grows w w'.
Proof.
  intros Hj Hc Ha Ht. split; [|split; [|split]]; [| |exact Ha|exact Ht].
  - exists []. by rewrite app_nil_r.
  - by exists [c].
Qed.

Lemma grows_respected : respected grows.
Proof.
  split.
  - intros id o w. by apply (grows_logged _ _ (UserGet id o)).
  - intros o w. by apply (grows_logged _ _ (UserGetList o)).
  - intros id s d _ w. unfold userRepository.update. simpl.
    apply (grows_logged _ _ (UserUpdate id (User.status_patch s d)));
      destruct (UserStore.update _ _ _) as [[u us]|]; reflexivity.
  - intros id item w. unfold userRepository.upsertMetadata. simpl.
    apply (grows_logged _ _ (UserUpsertMetadata id item));
      destruct (UserStore.upsertMetadata _ _ _); reflexivity.
  - intros id w. by apply (grows_logged _ _ (UserSyncUsage id)).
  - intros id w. apply (grows_logged _ _ (AlbumSoftDeleteAll id)); try done.
    unfold album_keys. simpl. unfold AlbumStore.softDeleteAll.
    rewrite <- list_fmap_compose. apply list_fmap_ext. intros _ a _. simpl.
    destruct (bool_decide _); [|reflexivity].
    destruct (Album.deletedAt a); reflexivity.
  - intros id w. apply (grows_logged _ _ (AlbumRestoreAll id)); try done.
    unfold album_keys. simpl. unfold AlbumStore.restoreAll.
    rewrite <- list_fmap_compose. apply list_fmap_ext. intros _ a _. simpl.
    destruct (bool_decide _); reflexivity.
  - intros item w. split; [|split; [|split]]; try done.
    + by exists [item].
    + by exists [JobQueue item].
  - intros dto w. unfold userCore.createUser. simpl.
    apply (grows_logged _ _ (CoreCreateUser dto));
      destruct (core_createUser _ _); reflexivity.
  - intros a id dto w. unfold userCore.updateUser. simpl.
    apply (grows_logged _ _ (CoreUpdateUser a id dto));
      destruct (core_updateUser _ _ _ _); reflexivity.
Qed.

(** X13.  The invariant between [status] and [deletedAt] survives any
    sequence of requests to the controller, failing requests included: if
    [deletedAt] is set exactly for the DELETED and REMOVING rows before, it
    is so after, and every row update the requests added to the call log
    writes both columns in agreement.  The User Core is assumed to keep the
    invariant. *)
Theorem requests_keep_invariant reqs w :
  core_keeps_consistent →
  store_consistent (users w) →
  store_consistent (users (UserAdminController.serve reqs w))
  ∧ ∃ new, calls (UserAdminController.serve reqs w) = calls w ++ new
           ∧ ∀ i p, UserUpdate i p ∈ new → patch_paired p.
Proof.
  intros Hcore.
  apply (steps_serve keeps_invariant (PreOrder0 := keeps_invariant_preorder)
           (keeps_invariant_respected Hcore) reqs w).
Qed.

(** X14.  Whatever requests the controller serves, the job queue and the
    call log are only ever extended, never cut or reordered, so a queued
    USER_DELETION or NOTIFY_SIGNUP job is never taken back; no album is
    created, removed or moved to another owner (only its [deletedAt]
    changes); and the clock is never set. *)
Theorem requests_only_append reqs w :
  let w' := UserAdminController.serve reqs w in
  (∃ more, jobs w' = jobs w ++ more)
  ∧ (∃ more, calls w' = calls w ++ more)
  ∧ album_keys w' = album_keys w
  ∧ clock w' = clock w.
Proof.
  apply (steps_serve grows (PreOrder0 := grows_preorder) grows_respected reqs w).
Qed.

End Lifecycle.

(** ** The service on the concrete instance *)

Import Fixture.

(** [delete] of the administrator "root", with [force]. *)
Lemma delete_admin_forbidden_witness :
  UserStore.get "root" {| withDeleted := None |} (users world) = Some root
  ∧ User.isAdmin root = true
  ∧ let r :=
      UserAdminService.delete admin "root"
        {| UserAdminDeleteDto.force := Some true |} world in
    r.1 = inl (ForbiddenException "Cannot delete admin user")
    ∧ users r.2 = users world
    ∧ albums r.2 = albums world
    ∧ jobs r.2 = jobs world
    ∧ calls r.2 = calls world ++ [UserGet "root" {| withDeleted := None |}].
Proof.
  split; [reflexivity|]. split; [reflexivity|].
  apply (delete_admin_forbidden admin "root" _ world root); reflexivity.
Defined.

(** [delete] of the live user "u2", without [force]. *)
Lemma delete_soft_witness :
  let patch := User.status_patch DELETED (Some 42) in
  let r :=
    UserAdminService.delete admin "u2"
      {| UserAdminDeleteDto.force := Some false |} world in
  r.1 = inr (User.merge user2 patch)
  ∧ users r.2 = <["u2" := User.merge user2 patch]> (users world)
  ∧ User.status (User.merge user2 patch) = DELETED
  ∧ User.deletedAt (User.merge user2 patch) = Some 42
  ∧ jobs r.2 = []
  ∧ calls r.2
    = [UserGet "u2" {| withDeleted := None |}; AlbumSoftDeleteAll "u2";
       UserUpdate "u2" patch].
Proof.
  refine (delete_soft admin "u2" {| UserAdminDeleteDto.force := Some false |}
            world user2 _ _ _ _); reflexivity.
Defined.

(** [delete] of the live user "u2", with [force]. *)
Lemma delete_force_witness :
  let patch := User.status_patch REMOVING (Some 42) in
  let r :=
    UserAdminService.delete admin "u2"
      {| UserAdminDeleteDto.force := Some true |} world in
  r.1 = inr (User.merge user2 patch)
  ∧ users r.2 = <["u2" := User.merge user2 patch]> (users world)
  ∧ User.status (User.merge user2 patch) = REMOVING
  ∧ User.deletedAt (User.merge user2 patch) = Some 42
  ∧ jobs r.2 = [USER_DELETION "u2" (Some true)]
  ∧ calls r.2
    = [UserGet "u2" {| withDeleted := None |}; AlbumSoftDeleteAll "u2";
       UserUpdate "u2" patch; JobQueue (USER_DELETION "u2" (Some true))].
Proof.
  refine (delete_force admin "u2" world user2 _ _ _); reflexivity.
Defined.

(** [delete] of the soft-deleted user "u1". *)
Lemma delete_soft_deleted_not_found_witness :
  users world !! "u1" = Some user1
  ∧ User.deletedAt user1 ≠ None
  ∧ let r :=
      UserAdminService.delete admin "u1"
        {| UserAdminDeleteDto.force := Some true |} world in
    r.1 = inl (BadRequestException "User not found")
    ∧ users r.2 = users world
    ∧ albums r.2 = albums world
    ∧ jobs r.2 = jobs world
    ∧ calls r.2 = calls world ++ [UserGet "u1" {| withDeleted := None |}].
Proof.
  split; [reflexivity|]. split; [discriminate|].
  apply (delete_soft_deleted_not_found admin "u1" _ world user1);
    [reflexivity | discriminate].
Defined.

(** [restore] of the soft-deleted user "u1", whose album "a1" is
    soft-deleted. *)
Lemma restore_soft_deleted_witness :
  let patch := User.status_patch ACTIVE None in
  let r := UserAdminService.restore admin "u1" world in
  r.1 = inr (User.merge user1 patch)
  ∧ users r.2 = <["u1" := User.merge user1 patch]> (users world)
  ∧ User.deletedAt (User.merge user1 patch) = None
  ∧ User.status (User.merge user1 patch) = ACTIVE
  ∧ calls r.2
    = [UserGet "u1" {| withDeleted := Some true |}; AlbumRestoreAll "u1";
       UserUpdate "u1" patch]
  ∧ albums r.2 = AlbumStore.restoreAll "u1" (albums world)
  ∧ (∀ a, a ∈ albums r.2 → Album.ownerId a = "u1" → Album.deletedAt a = None)
  ∧ (∀ a, a ∈ albums world → Album.ownerId a ≠ "u1" → a ∈ albums r.2).
Proof.
  refine (restore_soft_deleted admin "u1" world user1 _ _);
    [reflexivity | discriminate].
Defined.

(** [restore], twice, of the soft-deleted user "u1". *)
Lemma restore_idempotent_witness :
  let u' := User.merge user1 (User.status_patch ACTIVE None) in
  let r1 := UserAdminService.restore admin "u1" world in
  let r2 := UserAdminService.restore admin "u1" r1.2 in
  r1.1 = inr u'
  ∧ users r1.2 !! "u1" = Some u'
  ∧ User.status u' = ACTIVE ∧ User.deletedAt u' = None
  ∧ r2.1 = inr u'
  ∧ users r2.2 = users r1.2
  ∧ albums r2.2 = albums r1.2
  ∧ jobs r2.2 = jobs r1.2.
Proof.
  refine (proj1 (restore_idempotent admin "u1" world) user1 _). reflexivity.
Defined.

(** C6, as stated, fails.  The stored quota of "u2" is 100.  A command that
    sets the quota to 0, and one that sets it to null, both set a value that
    differs from the stored one, and neither makes [update] call
    [syncUsage]: the calls are the lookup and the User Core call only. *)
Lemma update_quota_zero_no_resync :
  UserStore.get "u2" {| withDeleted := None |} (users world) = Some user2
  ∧ User.quotaSizeInBytes user2 = Some 100
  ∧ (let dto := with_quota (Some (Some 0)) in
     let r := UserAdminService.update admin "u2" dto world in
     UserAdminUpdateDto.quotaSizeInBytes dto ≠ Some (User.quotaSizeInBytes user2)
     ∧ (UserSyncUsage "u2" ∉ calls r.2)
     ∧ calls r.2
       = [UserGet "u2" {| withDeleted := None |}; CoreUpdateUser root "u2" dto])
  ∧ (let dto := with_quota (Some None) in
     let r := UserAdminService.update admin "u2" dto world in
     UserAdminUpdateDto.quotaSizeInBytes dto ≠ Some (User.quotaSizeInBytes user2)
     ∧ (UserSyncUsage "u2" ∉ calls r.2)
     ∧ calls r.2
       = [UserGet "u2" {| withDeleted := None |}; CoreUpdateUser root "u2" dto]).
Proof.
  split; [reflexivity|]. split; [reflexivity|].
  split; (split; [discriminate|]); (split; [|reflexivity]);
    intros Hin; vm_compute in Hin; no_such_call Hin.
Defined.

Lemma fixture_world_consistent : store_consistent (users world).
Proof.
  unfold store_consistent, world. simpl.
  repeat (apply map_Forall_insert_2; [unfold status_consistent; simpl|]);
    [| | | apply map_Forall_empty];
    (split; [intros Hd; try (exfalso; by apply Hd); auto
            | intros [Hs|Hs]; discriminate]).
Qed.

Lemma fixture_core_keeps_consistent : core_keeps_consistent.
Proof.
  intros us Hus. split.
  - intros dto. simpl.
    destruct (us !! _); simpl; [exact Hus|].
    apply map_Forall_insert_2; [|exact Hus].
    split; [intros Hd; by exfalso; apply Hd | intros [Hs|Hs]; discriminate].
  - intros a i dto. simpl. unfold UserStore.update.
    destruct (us !! i) as [u|] eqn:Hu; simpl; [|exact Hus].
    apply map_Forall_insert_2; [|exact Hus].
    apply merge_consistent; [|exact I].
    exact (map_Forall_lookup_1 _ _ _ _ Hus Hu).
Qed.

(** The invariant holds in the fixture world, and still holds after a forced
    [delete] of "u2", after a [restore] of "u1" and after an [update] of "u2"
    with both preference shortcuts; the forced [delete] leaves "u2" REMOVING
    with the timestamp 42, the [restore] leaves "u1" ACTIVE with none. *)
Lemma status_deletedAt_invariant_witness :
  store_consistent (users world)
  ∧ store_consistent
      (users (UserAdminService.delete admin "u2"
                {| UserAdminDeleteDto.force := Some true |} world).2)
  ∧ store_consistent (users (UserAdminService.restore admin "u1" world).2)
  ∧ store_consistent
      (users (UserAdminService.update admin "u2"
                (with_shortcuts (Some false) (Some pink)) world).2)
  ∧ (∃ u', users (UserAdminService.delete admin "u2"
                    {| UserAdminDeleteDto.force := Some true |} world).2 !! "u2"
           = Some u'
           ∧ User.status u' = REMOVING ∧ User.deletedAt u' = Some 42)
  ∧ (∃ u', users (UserAdminService.restore admin "u1" world).2 !! "u1"
           = Some u'
           ∧ User.status u' = ACTIVE ∧ User.deletedAt u' = None).
Proof.
  pose proof status_deletedAt_invariant
    as (Hdw & Hrw & _ & _ & _ & Hdelete & Hrestore & _ & Hcore).
  destruct (Hcore fixture_core_keeps_consistent) as [_ Hupdate].
  split; [exact fixture_world_consistent|].
  split; [|split; [|split; [|split]]].
  - exact (proj1 (Hdelete admin "u2" _ world fixture_world_consistent)).
  - exact (proj1 (Hrestore admin "u1" world fixture_world_consistent)).
  - exact (proj1 (Hupdate admin "u2" _ world fixture_world_consistent)).
  - destruct (Hdw admin "u2" {| UserAdminDeleteDto.force := Some true |} world)
      as (new & _ & _ & Hok).
    assert (UserStore.get "u2" {| withDeleted := None |} (users world)
            = Some user2) as Hget by reflexivity.
    exact (proj2 (Hok user2 Hget eq_refl)).
  - destruct (Hrw admin "u1" world) as (new & _ & _ & Hok).
    assert (users world !! "u1" = Some user1) as Hu by reflexivity.
    exact (proj2 (Hok user1 Hu)).
Defined.

(** [update] of "u2", whose stored quota is 100: with a quota of 50, and
    with no quota at all. *)
Lemma update_resync_witness :
  UserStore.get "u2" {| withDeleted := None |} (users world) = Some user2
  ∧ (let r := UserAdminService.update admin "u2"
                (with_quota (Some (Some 50))) world in
     ∃ mid dto' us1 u1,
       calls r.2
       = [UserGet "u2" {| withDeleted := None |}; UserSyncUsage "u2"] ++ mid
         ++ [CoreUpdateUser root "u2" dto']
       ∧ (∀ c, c ∈ mid → ∃ item, c = UserUpsertMetadata "u2" item)
       ∧ users r.2 = (core_updateUser root "u2" dto' us1).2
       ∧ us1 !! "u2" = Some u1
       ∧ User.quotaUsageInBytes u1 = 7)
  ∧ (let r := UserAdminService.update admin "u2" no_update world in
     ∃ new, calls r.2 = new ∧ ∀ i, UserSyncUsage i ∉ new).
Proof.
  split; [reflexivity|]. split.
  - refine (proj1 (update_resync admin "u2" (with_quota (Some (Some 50)))
                     world user2 _) 50 _ _ _);
      [reflexivity | reflexivity | discriminate | discriminate].
  - refine (proj2 (update_resync admin "u2" no_update world user2 _) _);
      [reflexivity | left; reflexivity].
Defined.

(** [update] of "u2" with [memoriesEnabled] false and the avatar colour
    pink. *)
Lemma update_preference_shortcuts_witness :
  let dto := with_shortcuts (Some false) (Some pink) in
  let item :=
    {| UserMetadataItem.key := PREFERENCES;
       UserMetadataItem.value :=
         {| Preferences.p_memories_enabled := Some false;
            Preferences.p_avatar_color := Some pink |} |} in
  let dto' := with_shortcuts None None in
  let r := UserAdminService.update admin "u2" dto world in
  ∃ sync us1 u1,
    calls r.2
    = [UserGet "u2" {| withDeleted := None |}] ++ sync
      ++ [UserUpsertMetadata "u2" item; CoreUpdateUser root "u2" dto']
    ∧ (sync = [] ∨ sync = [UserSyncUsage "u2"])
    ∧ users r.2 = (core_updateUser root "u2" dto' us1).2
    ∧ us1 !! "u2" = Some u1
    ∧ User.metadata u1 = UserStore.upsert item (User.metadata user2).
Proof.
  refine (update_preference_shortcuts admin "u2"
            (with_shortcuts (Some false) (Some pink)) world user2 _ _);
    [reflexivity | left; discriminate].
Defined.

(** [create] with [notify], with memories disabled: the created user has
    [shouldChangePassword], so the job carries the password of the
    command. *)
Lemma create_notify_witness :
  let dto := signup (Some false) (Some true) in
  let r := UserAdminService.create dto world in
  let job := NOTIFY_SIGNUP "id:user5@immich.cloud" (Some "password123") in
  (∃ user, r.1 = inr user
           ∧ User.id user = "id:user5@immich.cloud"
           ∧ User.shouldChangePassword user = true)
  ∧ jobs r.2 = [job]
  ∧ ∃ pre, calls r.2 = pre ++ [JobQueue job] ∧ ∀ j, JobQueue j ∉ pre.
Proof.
  refine (proj2 (create_notify (signup (Some false) (Some true)) world)
            (new_user (UserAdminCreateDto.rest_of (signup (Some false) (Some true))))
            _ _ _ _);
    [reflexivity | intros _; split; reflexivity | reflexivity].
Defined.

(** ** Further runs on the concrete instance *)

(** [update] and [delete] of the soft-deleted user "u1", and [restore] of an
    id that has no row. *)
Lemma unresolved_lookup_no_effect_witness :
  UserStore.get "u1" {| withDeleted := None |} (users world) = None
  ∧ users world !! "nobody" = None
  ∧ (let r := UserAdminService.update admin "u1"
                (with_shortcuts (Some false) (Some pink)) world in
     r.1 = inl (BadRequestException "User not found")
     ∧ users r.2 = users world
     ∧ calls r.2 = [UserGet "u1" {| withDeleted := None |}])
  ∧ (let r := UserAdminService.delete admin "u1"
                {| UserAdminDeleteDto.force := Some true |} world in
     r.1 = inl (BadRequestException "User not found")
     ∧ jobs r.2 = []
     ∧ calls r.2 = [UserGet "u1" {| withDeleted := None |}])
  ∧ (let r := UserAdminService.restore admin "nobody" world in
     r.1 = inl (BadRequestException "User not found")
     ∧ albums r.2 = albums world
     ∧ calls r.2 = [UserGet "nobody" {| withDeleted := Some true |}]).
Proof.
  split; [reflexivity|]. split; [reflexivity|].
  destruct (unresolved_lookup_no_effect admin "u1" world) as [Hlive _].
  destruct (Hlive eq_refl) as [Hupdate Hdelete].
  destruct (unresolved_lookup_no_effect admin "nobody" world) as [_ Hrestore].
  split; [|split].
  - destruct (Hupdate (with_shortcuts (Some false) (Some pink)))
      as (H1 & H2 & _ & _ & H5). repeat split; assumption.
  - destruct (Hdelete {| UserAdminDeleteDto.force := Some true |})
      as (H1 & _ & _ & H4 & H5). repeat split; assumption.
  - destruct (Hrestore eq_refl) as (H1 & _ & H3 & _ & H5).
    repeat split; assumption.
Defined.

(** A forced [delete] of the administrator "root" leaves the row of "root"
    as it is, and a forced [delete] of "u2" leaves the row of "u1". *)
Lemma delete_rows_untouched_witness :
  users (UserAdminService.delete admin "root"
           {| UserAdminDeleteDto.force := Some true |} world).2 !! "root"
  = Some root
  ∧ users (UserAdminService.delete admin "u2"
             {| UserAdminDeleteDto.force := Some true |} world).2 !! "u1"
    = Some user1.
Proof.
  split.
  - refine (delete_rows_untouched admin "root" _ world "root" root _ _);
      [reflexivity | right; left; reflexivity].
  - refine (delete_rows_untouched admin "u2" _ world "u1" user1 _ _);
      [reflexivity | left; discriminate].
Defined.

(** [restore] of "u1" in a world with one queued job. *)
Lemma restore_frame_witness :
  let w := push_job (USER_DELETION "u1" (Some true)) world in
  let r := UserAdminService.restore admin "u1" w in
  jobs r.2 = [USER_DELETION "u1" (Some true)]
  ∧ users r.2 !! "u2" = Some user2
  ∧ album "a2" "u2" None ∈ albums r.2.
Proof.
  destruct (restore_frame admin "u1"
              (push_job (USER_DELETION "u1" (Some true)) world))
    as (Hjobs & Hrows & Halbums).
  split; [exact Hjobs|]. split.
  - rewrite (Hrows "u2") by discriminate. reflexivity.
  - apply Halbums; [|discriminate].
    apply list_elem_of_further, list_elem_of_here.
Defined.

(** [delete] of "u2", who owns the album "a2". *)
Lemma delete_soft_deletes_albums_witness :
  let r := UserAdminService.delete admin "u2"
             {| UserAdminDeleteDto.force := None |} world in
  (∀ a, a ∈ albums r.2 → Album.ownerId a = "u2" → Album.deletedAt a ≠ None)
  ∧ (∀ a, a ∈ albums world → Album.ownerId a ≠ "u2" → a ∈ albums r.2)
  ∧ length (albums r.2) = 3%nat
  ∧ ∃ patch rest,
      calls r.2
      = [UserGet "u2" {| withDeleted := None |}; AlbumSoftDeleteAll "u2";
         UserUpdate "u2" patch] ++ rest.
Proof.
  refine (delete_soft_deletes_albums admin "u2" _ world user2 _ _ _);
    reflexivity.
Defined.


(** A soft [delete] of "u2", then a forced one. *)
Lemma delete_twice_not_found_witness :
  let r1 := UserAdminService.delete admin "u2"
              {| UserAdminDeleteDto.force := Some false |} world in
  let r2 := UserAdminService.delete admin "u2"
              {| UserAdminDeleteDto.force := Some true |} r1.2 in
  (∃ v, r1.1 = inr v)
  ∧ r2.1 = inl (BadRequestException "User not found")
  ∧ users r2.2 = users r1.2
  ∧ albums r2.2 = albums r1.2
  ∧ jobs r2.2 = jobs r1.2.
Proof.
  refine (delete_twice_not_found admin "u2" _ _ world user2 _ _ _);
    reflexivity.
Defined.

(** [create] with memories disabled, and with memories enabled. *)
Lemma create_memories_disabled_witness :
  let item :=
    {| UserMetadataItem.key := PREFERENCES;
       UserMetadataItem.value :=
         {| Preferences.p_memories_enabled := Some false;
            Preferences.p_avatar_color := None |} |} in
  (let r := UserAdminService.create (signup (Some false) None) world in
   ∃ user, r.1 = inr user
           ∧ users r.2 !! "id:user5@immich.cloud" = Some user
           ∧ User.metadata user = [item])
  ∧ (let r := UserAdminService.create (signup (Some true) None) world in
     ∃ new, calls r.2 = new
            ∧ (∀ i it, UserUpsertMetadata i it ∉ new)
            ∧ (∀ i o, UserGet i o ∉ new)).
Proof.
  split.
  - pose (u := new_user (UserAdminCreateDto.rest_of (signup (Some false) None))).
    assert (core_createUser (UserAdminCreateDto.rest_of (signup (Some false) None))
              (users world)
            = (inr u, <[User.id u := u]> (users world))) as Hcore
      by reflexivity.
    destruct (proj2 (create_memories_disabled (signup (Some false) None) world)
                u _ Hcore (lookup_insert_eq _ _ _) eq_refl eq_refl)
      as (Hres & Husers & _).
    eexists. split; [exact Hres|]. split; [|reflexivity].
    rewrite Husers. apply lookup_insert_eq.
  - destruct (proj1 (create_memories_disabled (signup (Some true) None) world))
      as (_ & new & Hcalls & Hno); [discriminate|].
    exists new. split; [exact Hcalls | exact Hno].
Defined.

(** [create] with [notify], against the User Core that rejects. *)
Lemma create_rejected_witness :
  let r := UserAdminService.create (H0 := Rejecting.core)
             (signup None (Some true)) world in
  r.1 = inl (BadRequestException "User exists")
  ∧ users r.2 = users world
  ∧ albums r.2 = albums world
  ∧ jobs r.2 = []
  ∧ calls r.2
    = [CoreCreateUser (UserAdminCreateDto.rest_of (signup None (Some true)))].
Proof.
  refine (create_rejected (H0 := Rejecting.core)
            (signup None (Some true)) world _ _ _).
  reflexivity.
Defined.


(** [update] of the name of "u2". *)
Lemma update_plain_delegates_witness :
  let dto := with_shortcuts None None in
  let r := UserAdminService.update admin "u2" dto world in
  r.1 = inr (User.merge user2 (patch_of dto))
  ∧ users r.2 = <["u2" := User.merge user2 (patch_of dto)]> (users world)
  ∧ calls r.2
    = [UserGet "u2" {| withDeleted := None |}; CoreUpdateUser root "u2" dto].
Proof.
  refine (update_plain_delegates admin "u2" (with_shortcuts None None)
            world user2 _ _ _ _);
    [reflexivity | reflexivity | reflexivity | left; reflexivity].
Defined.

(** A forced delete of "u2", a restore of "u1", an update of "u2" (which
    fails: "u2" is deleted by then) and a creation. *)
Lemma requests_keep_invariant_witness :
  let reqs :=
    [DELETE_admin_users_id admin {| UUIDParamDto.id := "u2" |}
       {| UserAdminDeleteDto.force := Some true |};
     POST_admin_users_id_restore admin {| UUIDParamDto.id := "u1" |};
     PUT_admin_users_id admin {| UUIDParamDto.id := "u2" |}
       (with_shortcuts (Some false) (Some pink));
     POST_admin_users (signup (Some false) (Some true))] in
  store_consistent (users world)
  ∧ store_consistent (users (UserAdminController.serve reqs world))
  ∧ ∃ new, calls (UserAdminController.serve reqs world) = new
           ∧ ∀ i p, UserUpdate i p ∈ new → patch_paired p.
Proof.
  split; [exact fixture_world_consistent|].
  refine (requests_keep_invariant _ world
            fixture_core_keeps_consistent fixture_world_consistent).
Defined.
